(** * The filesystem behaviours of advanced-rest-client/filesystem-behavior

    A shallow embedding of [web-filesystem-behavior.js] and
    [sync-filesystem-behavior.js].

    The behaviours are asynchronous: every method starts a chain of platform
    requests and returns at once, and the rest of the chain runs in the
    callbacks the platform delivers later.  The embedding keeps that shape:
    a [World] holds the element's properties, the platform, the requests in
    flight (each with what the source does when it completes) and the log of
    what happened; a method call adds requests, [deliver] completes one of
    them and runs the callback of the source.  The handlers a promise chain
    runs between two requests are taken as one step with the callback that
    starts them. *)

From Stdlib Require Import ZArith List String Ascii Bool Lia Arith.
From Stdlib Require Import Strings.Byte.
Import ListNotations.

Local Open Scope string_scope.
Local Open Scope list_scope.

(** ** Values *)

(** What a rejection or an error callback carries: an error object (a
    [DOMException], a [FileError], [chrome.runtime.lastError], an [Error] made
    by the behaviour) with its [message] property, or [undefined]. *)
Inductive Reason : Type :=
| RUndefined
| RError (name : string) (message : option string).

(** [new Error(message)] *)
Definition Error (message : string) : Reason := RError "Error" (Some message).

(** An entry of the root directory as the behaviours see it. *)
Record Entry : Type := mkEntry { entry_name : string; isDirectory : bool }.

(** The values the behaviours hand to [fire], and the [detail] argument
    itself: one value, or an object literal. *)
Inductive Val : Type :=
| VUndefined
| VNumber (n : Z)
| VString (s : string)
| VReason (r : Reason)
| VEntries (files : list Entry).

Inductive Detail : Type :=
| Value (v : Val)
| Object (props : list (string * Val)).

(** The [content] property: [String|ArrayBuffer|Blob], [undefined] until it is
    assigned. *)
Inductive Content : Type :=
| CUndefined
| CString (s : string)
| CBinary (data : list byte).

Definition filename_eq_dec (a b : option string) : {a = b} + {a <> b}.
Proof. decide equality. apply string_dec. Defined.

Definition Content_eq_dec (a b : Content) : {a = b} + {a <> b}.
Proof.
  decide equality.
  - apply string_dec.
  - apply (list_eq_dec byte_eq_dec).
Defined.

Record Blob : Type := mkBlob { blob_bytes : list byte; blob_type : string }.

Inductive StorageType : Type := TEMPORARY | PERSISTENT.

(** The handle kept in the [fileSystem] property. *)
Inductive FileSystem : Type :=
| LocalFileSystem (type : StorageType) (size : Z)
| SyncableFileSystem.

(** JavaScript truthiness of a string and of a possibly undefined string. *)
Definition truthy_string (s : string) : bool :=
  match s with EmptyString => false | _ => true end.

Definition truthy (v : option string) : bool :=
  match v with Some s => truthy_string s | None => false end.

(** Conversion of the [filename] argument to a DOMString. *)
Definition ToString (v : option string) : string :=
  match v with Some s => s | None => "undefined" end.

(** [hay.indexOf(needle)]: the first position of [needle] in [hay], or -1. *)
Fixpoint indexOf_from (pos : Z) (needle hay : string) : Z :=
  if prefix needle hay then pos
  else match hay with
       | EmptyString => (-1)%Z
       | String _ hay' => indexOf_from (pos + 1)%Z needle hay'
       end.

Definition indexOf (hay needle : string) : Z := indexOf_from 0%Z needle hay.

(** ** The element's properties (lines 54-132) *)

Record Props : Type := mkProps {
  quota : Z;
  grantedQuota : Z;
  filename : option string;
  auto : bool;
  content : Content;
  mime : string;
  fileSystem : option FileSystem
}.

(** The values of a newly created element. *)
Definition created : Props :=
  {| quota := 0%Z; grantedQuota := 0%Z; filename := None; auto := false;
     content := CUndefined; mime := "text/plain"; fileSystem := None |}.

(** The two behaviours of the repository: [WebFilesystemBehavior] alone, and
    [SyncFilesystemBehavior], the former with [_requestFilesystem],
    [getUsageAndQuota], [getFile] and [list] replaced by those of
    [SyncFilesystemBehaviorImpl]. *)
Inductive Behavior : Type := WebFilesystemBehavior | SyncFilesystemBehavior.

(** ** The platform *)

Inductive Node : Type :=
| NFile (data : list byte)
| NDirectory.

(** The root directory lists its children in the platform's order; a name
    is the name of a child, as the platform resolves it.  [pages] is how the
    platform cuts a listing into pages: page [i] holds [S (nth i pages)]
    entries, what is left after the last size comes in one page.  [faults]
    decides, request by request in the order of completion, whether the
    platform reports an error ([Some reason]) or serves the request ([None],
    also when the list is used up); a request the root itself cannot serve
    fails with the error of the root. *)
Record Host : Type := mkHost {
  root : list (string * Node);
  pages : list nat;
  faults : list (option Reason);
  usageBytes : Z;
  quotaBytes : Z
}.

Definition TypeMismatchError : Reason := RError "TypeMismatchError" None.
Definition NotFoundError : Reason := RError "NotFoundError" None.

Fixpoint dir_lookup (name : string) (d : list (string * Node)) : option Node :=
  match d with
  | [] => None
  | (n, x) :: d' => if String.eqb n name then Some x else dir_lookup name d'
  end.

Fixpoint dir_update (name : string) (x : Node) (d : list (string * Node))
  : list (string * Node) :=
  match d with
  | [] => []
  | (n, y) :: d' =>
      if String.eqb n name then (n, x) :: d' else (n, y) :: dir_update name x d'
  end.

Definition dir_remove (name : string) (d : list (string * Node))
  : list (string * Node) :=
  filter (fun p => negb (String.eqb (fst p) name)) d.

Definition dir_entries (d : list (string * Node)) : list Entry :=
  map (fun p => {| entry_name := fst p;
                   isDirectory := match snd p with NDirectory => true | NFile _ => false end |}) d.

(** [root.getFile(name, {create: true}, ...)]: the file is opened, or created
    empty at the end of the listing when nothing has that name; a directory
    of that name is a type mismatch. *)
Definition host_getFile (name : string) (d : list (string * Node))
  : (Entry * list (string * Node)) + Reason :=
  match dir_lookup name d with
  | Some (NFile _) => inl (mkEntry name false, d)
  | Some NDirectory => inr TypeMismatchError
  | None => inl (mkEntry name false, d ++ [(name, NFile [])])
  end.

(** [fileWriter.truncate(size)] *)
Definition host_truncate (name : string) (size : nat) (d : list (string * Node))
  : list (string * Node) + Reason :=
  match dir_lookup name d with
  | Some (NFile data) =>
      inl (dir_update name
             (NFile (firstn size data ++ repeat x00 (size - List.length data))) d)
  | _ => inr NotFoundError
  end.

(** [fileWriter.write(blob)] on a writer just created: the writer's position
    is 0, the blob replaces the bytes it covers and the bytes after it
    stay. *)
Definition host_write (name : string) (b : Blob) (d : list (string * Node))
  : list (string * Node) + Reason :=
  match dir_lookup name d with
  | Some (NFile data) =>
      inl (dir_update name
             (NFile (blob_bytes b ++ skipn (List.length (blob_bytes b)) data)) d)
  | _ => inr NotFoundError
  end.

(** The bytes [fileEntry.file] and the reader get. *)
Definition host_read (name : string) (d : list (string * Node))
  : list byte + Reason :=
  match dir_lookup name d with
  | Some (NFile data) => inl data
  | _ => inr NotFoundError
  end.

(** [fileEntry.remove(...)] *)
Definition host_remove (name : string) (d : list (string * Node))
  : list (string * Node) + Reason :=
  match dir_lookup name d with
  | Some (NFile _) => inl (dir_remove name d)
  | _ => inr NotFoundError
  end.

(** The next page of a directory reader and the reader after it. *)
Definition next_page (sizes : list nat) (unread : list Entry)
  : list Entry * (list nat * list Entry) :=
  match sizes with
  | [] => (unread, ([], []))
  | n :: sizes' => (firstn (S n) unread, (sizes', skipn (S n) unread))
  end.

(** ** Sorting

    [entries.sort()] has no comparator: the elements are ordered by their
    string conversions, and the sort is stable.  An entry converts to the
    name of its class. *)
Definition Entry_toString (e : Entry) : string :=
  if isDirectory e then "[object DirectoryEntry]" else "[object FileEntry]".

Fixpoint sort_insert (x : Entry) (l : list Entry) : list Entry :=
  match l with
  | [] => [x]
  | y :: l' =>
      if String.leb (Entry_toString x) (Entry_toString y) then x :: l
      else y :: sort_insert x l'
  end.

Definition sort (l : list Entry) : list Entry := fold_right sort_insert [] l.

(** Whether a listing is in the order of its names. *)
Fixpoint sorted_by_name (l : list Entry) : bool :=
  match l with
  | [] => true
  | x :: l' =>
      match l' with
      | [] => true
      | y :: _ => String.leb (entry_name x) (entry_name y) && sorted_by_name l'
      end
  end.

(** ** Requests, continuations and the world *)

(** The requests the behaviours send to the platform. *)
Inductive Call : Type :=
| RequestQuota (bytes : Z)
| RequestFileSystem (type : StorageType) (bytes : Z)
| SyncRequestFileSystem
| QueryUsageAndQuota
| SyncGetUsageAndQuota
| RootGetFile (name : string) (create : bool)
| CreateWriter (name : string)
| Truncate (name : string) (size : nat)
| Write (name : string) (b : Blob)
| File (name : string)
| ReadAsText (name : string)
| CreateReader
| ReadEntries
| EntryRemove (name : string).

(** What [getFile]'s promise is chained to: the caller of the public method,
    or one of the methods of the behaviour. *)
Inductive FileK : Type := FKCaller | FKTruncate | FKWrite | FKRead | FKRemove.

(** What [_requestFilesystem]'s promise is chained to. *)
Inductive MountK : Type := MKReady | MKGetFile (k : FileK) | MKList | MKUsage.

(** Which method asked for a writer. *)
Inductive WriterK : Type := WTruncate | WWrite.

(** A request in flight, with what its callbacks need. *)
Inductive Task : Type :=
| TRequestQuota (bytes : Z) (k : MountK)
| TRequestFileSystem (type : StorageType) (bytes : Z) (k : MountK)
| TSyncRequestFileSystem (k : MountK)
| TQueryUsageAndQuota
| TSyncGetUsageAndQuota
| TGetFile (name : string) (k : FileK)
| TCreateWriter (e : Entry) (k : WriterK)
| TTruncate (e : Entry) (size : nat)
| TWrite (e : Entry) (b : Blob)
| TFile (e : Entry)
| TReadAsText (e : Entry)
| TReadEntries (sizes : list nat) (unread : list Entry) (entries : list Entry)
| TRemove (e : Entry).

Definition call_of (t : Task) : Call :=
  match t with
  | TRequestQuota bytes _ => RequestQuota bytes
  | TRequestFileSystem type bytes _ => RequestFileSystem type bytes
  | TSyncRequestFileSystem _ => SyncRequestFileSystem
  | TQueryUsageAndQuota => QueryUsageAndQuota
  | TSyncGetUsageAndQuota => SyncGetUsageAndQuota
  | TGetFile name _ => RootGetFile name true
  | TCreateWriter e _ => CreateWriter (entry_name e)
  | TTruncate e size => Truncate (entry_name e) size
  | TWrite e b => Write (entry_name e) b
  | TFile e => File (entry_name e)
  | TReadAsText e => ReadAsText (entry_name e)
  | TReadEntries _ _ _ => ReadEntries
  | TRemove e => EntryRemove (entry_name e)
  end.

(** A callback given to [this.async]: it runs once the current callback has
    returned, before the platform delivers anything else. *)
Inductive Microtask : Type := MRestoreAuto (saved : bool).

(** What can be observed of an element, in the order it happens: the requests
    it sends, the events it fires (the arguments of [this.fire], [undefined]
    for a missing detail), the writes of its two read-only properties, the
    settling of the promise a caller got from [getFile], and an exception
    that leaves a platform callback uncaught. *)
Inductive Obs : Type :=
| Platform (c : Call)
| Fire (type : string) (detail : Detail)
| SetFileSystem (fs : FileSystem)
| SetGrantedQuota (bytes : Z)
| Resolved (e : Entry)
| Rejected (r : Reason)
| Uncaught.

Record World : Type := mkWorld {
  behavior : Behavior;
  props : Props;
  host : Host;
  pending : list Task;
  microtasks : list Microtask;
  log : list Obs
}.

Definition with_props (f : Props -> Props) (w : World) : World :=
  mkWorld (behavior w) (f (props w)) (host w) (pending w) (microtasks w) (log w).

Definition with_root (d : list (string * Node)) (w : World) : World :=
  mkWorld (behavior w) (props w)
    (mkHost d (pages (host w)) (faults (host w)) (usageBytes (host w)) (quotaBytes (host w)))
    (pending w) (microtasks w) (log w).

Definition observe (o : Obs) (w : World) : World :=
  mkWorld (behavior w) (props w) (host w) (pending w) (microtasks w) (log w ++ [o]).

(** Sending a request: it is logged and joins the requests in flight. *)
Definition issue (t : Task) (w : World) : World :=
  mkWorld (behavior w) (props w) (host w) (pending w ++ [t]) (microtasks w)
    (log w ++ [Platform (call_of t)]).

(** [this.async(callback)] *)
Definition async (m : Microtask) (w : World) : World :=
  mkWorld (behavior w) (props w) (host w) (pending w) (microtasks w ++ [m]) (log w).

(** [this.fire(type, detail)] *)
Definition fire (type : string) (detail : Detail) (w : World) : World :=
  observe (Fire type detail) w.

Definition put_auto (b : bool) (p : Props) : Props :=
  mkProps (quota p) (grantedQuota p) (filename p) b (content p) (mime p) (fileSystem p).

Definition put_content (c : Content) (p : Props) : Props :=
  mkProps (quota p) (grantedQuota p) (filename p) (auto p) c (mime p) (fileSystem p).

Definition put_filename (v : option string) (p : Props) : Props :=
  mkProps (quota p) (grantedQuota p) v (auto p) (content p) (mime p) (fileSystem p).

Definition put_mime (m : string) (p : Props) : Props :=
  mkProps (quota p) (grantedQuota p) (filename p) (auto p) (content p) m (fileSystem p).

Definition put_quota (q : Z) (p : Props) : Props :=
  mkProps q (grantedQuota p) (filename p) (auto p) (content p) (mime p) (fileSystem p).

Definition put_grantedQuota (g : Z) (p : Props) : Props :=
  mkProps (quota p) g (filename p) (auto p) (content p) (mime p) (fileSystem p).

Definition put_fileSystem (fs : FileSystem) (p : Props) : Props :=
  mkProps (quota p) (grantedQuota p) (filename p) (auto p) (content p) (mime p) (Some fs).

(** The setters of the read-only properties. *)
Definition _setFileSystem (fs : FileSystem) (w : World) : World :=
  observe (SetFileSystem fs) (with_props (put_fileSystem fs) w).

Definition _setGrantedQuota (g : Z) (w : World) : World :=
  observe (SetGrantedQuota g) (with_props (put_grantedQuota g) w).

(** The [i]-th request in flight and the others. *)
Fixpoint pick (i : nat) (l : list Task) : option (Task * list Task) :=
  match l with
  | [] => None
  | t :: l' =>
      match i with
      | O => Some (t, l')
      | S i' => match pick i' l' with
                | Some (u, r) => Some (u, t :: r)
                | None => None
                end
      end
  end.

(** The platform's verdict on the request it completes now. *)
Definition next_fault (h : Host) : option Reason * Host :=
  match faults h with
  | [] => (None, h)
  | f :: fs => (f, mkHost (root h) (pages h) fs (usageBytes h) (quotaBytes h))
  end.

Definition not_signed_in_message : string :=
  "You must be signed in to the Chrome to use syncable storage".

(** [reason && reason.message && reason.message.indexOf('error code: -107') > 0]
    (sync-filesystem-behavior.js, lines 83 and 99) *)
Definition not_signed_in (reason : Reason) : bool :=
  match reason with
  | RUndefined => false
  | RError _ None => false
  | RError _ (Some message) =>
      truthy_string message && (0 <? indexOf message "error code: -107")%Z
  end.

(** ** The behaviours *)

Section Behaviors.

(** The platform's text codec ([new Blob([string])] and [readAsText]) and the
    user agent's answer to a quota request. *)
Variable encode : string -> list byte.
Variable decode : list byte -> string.
Variable grant : Z -> Z.

(** [_writeFileEntry], lines 353-361: the argument given to [new Blob]. *)
Inductive BlobParts : Type :=
| ArrayOf (parts : list string)
| NotArray (c : Content).

Definition toWrite (c : Content) : BlobParts :=
  match c with
  | CString s => ArrayOf [s]
  | _ => NotArray c
  end.

(** [new Blob(parts, {type: type})]: a sequence of strings is encoded and
    concatenated, [undefined] is an omitted argument, anything else that is
    not a sequence throws a TypeError ([None]). *)
Definition new_Blob (parts : BlobParts) (type : string) : option Blob :=
  match parts with
  | ArrayOf l => Some (mkBlob (List.concat (map encode l)) type)
  | NotArray CUndefined => Some (mkBlob [] type)
  | NotArray _ => None
  end.

(** *** Promise chains

    The handlers attached to [getFile]'s promise by each of its users. *)

(** [_truncate], lines 326-328 *)
Definition _truncate (fileEntry : Entry) (w : World) : World :=
  issue (TCreateWriter fileEntry WTruncate) w.

(** [_writeFileEntry], lines 344-346 *)
Definition _writeFileEntry (fileEntry : Entry) (w : World) : World :=
  issue (TCreateWriter fileEntry WWrite) w.

(** [_readFileContents], lines 304-306 *)
Definition _readFileContents (fileEntry : Entry) (w : World) : World :=
  issue (TFile fileEntry) w.

Definition getFile_resolved (k : FileK) (fileEntry : Entry) (w : World) : World :=
  match k with
  | FKCaller => observe (Resolved fileEntry) w
  | FKTruncate => _truncate fileEntry w                 (* line 259 *)
  | FKWrite => _writeFileEntry fileEntry w              (* line 261 *)
  | FKRead => _readFileContents fileEntry w             (* line 283 *)
  | FKRemove => issue (TRemove fileEntry) w             (* line 418 *)
  end.

Definition getFile_rejected (k : FileK) (reason : Reason) (w : World) : World :=
  match k with
  | FKCaller => observe (Rejected reason) w
  | FKTruncate | FKWrite => fire "error" (Value (VReason reason)) w   (* line 263 *)
  | FKRead => fire "error" (Value (VReason reason)) w                 (* line 296 *)
  | FKRemove => fire "error" (Value (VReason reason)) w               (* line 425 *)
  end.

(** The handlers attached to [_requestFilesystem]'s promise. *)
Definition mount_resolved (k : MountK) (w : World) : World :=
  match k with
  | MKReady => fire "filesystem-ready" (Value VUndefined) w           (* line 139 *)
  | MKGetFile fk =>                                                   (* lines 211, 74 *)
      issue (TGetFile (ToString (filename (props w))) fk) w
  | MKList =>                                                         (* lines 386-403 *)
      issue (TReadEntries (pages (host w)) (dir_entries (root (host w))) [])
        (observe (Platform CreateReader) w)
  | MKUsage => issue TSyncGetUsageAndQuota w                          (* line 46 *)
  end.

Definition mount_rejected (k : MountK) (reason : Reason) (w : World) : World :=
  match k with
  | MKReady =>                                                        (* lines 141-145 *)
      fire "error" (Object [("error", VReason reason)]) w
  | MKGetFile fk =>
      match behavior w with
      | WebFilesystemBehavior => getFile_rejected fk reason w         (* lines 219-221 *)
      | SyncFilesystemBehavior =>                                     (* lines 82-89 *)
          if not_signed_in reason
          then getFile_rejected fk (Error not_signed_in_message) w
          else getFile_rejected fk reason w
      end
  | MKList =>
      match behavior w with
      | WebFilesystemBehavior => fire "error" (Value (VReason reason)) w   (* lines 372-374 *)
      | SyncFilesystemBehavior =>                                          (* lines 98-105 *)
          if not_signed_in reason
          then fire "error" (Value (VString not_signed_in_message)) w
          else fire "error" (Value (VReason reason)) w
      end
  | MKUsage =>                                                        (* lines 53-57 *)
      fire "error" (Object [("message", VReason reason)]) w
  end.

(** [_requestFilesystem]: lines 155-172 of the web behaviour, lines 19-34 of
    the sync behaviour. *)
Definition _requestFilesystem (k : MountK) (w : World) : World :=
  match fileSystem (props w) with
  | Some _ => mount_resolved k w
  | None =>
      match behavior w with
      | WebFilesystemBehavior => issue (TRequestQuota (quota (props w)) k) w
      | SyncFilesystemBehavior => issue (TSyncRequestFileSystem k) w
      end
  end.

(** *** Methods *)

(** [requestFilesystem], lines 136-146 *)
Definition requestFilesystem (w : World) : World := _requestFilesystem MKReady w.

(** [getUsageAndQuota], lines 182-196 and 43-58 *)
Definition getUsageAndQuota (w : World) : World :=
  match behavior w with
  | WebFilesystemBehavior => issue TQueryUsageAndQuota w
  | SyncFilesystemBehavior => _requestFilesystem MKUsage w
  end.

(** [getFile], lines 207-223 and 70-91; [k] is what the caller chains to the
    promise. *)
Definition getFile (k : FileK) (w : World) : World := _requestFilesystem (MKGetFile k) w.

(** [writeFile], lines 257-264 *)
Definition writeFile (w : World) : World := getFile FKTruncate w.

(** [readFile], lines 281-298 *)
Definition readFile (w : World) : World := getFile FKRead w.

Definition read (w : World) : World := readFile w.
Definition write (w : World) : World := writeFile w.

(** [_listImpl], lines 383-405 *)
Definition _listImpl (w : World) : World := _requestFilesystem MKList w.

(** [list], lines 370-375 and 96-106 *)
Definition list_ (w : World) : World := _listImpl w.

(** [remove], lines 411-427 *)
Definition remove (w : World) : World :=
  if negb (truthy (filename (props w)))
  then fire "error" (Value (VReason (Error "Filename not present."))) w
  else getFile FKRemove w.

(** The observers, lines 227-239 *)
Definition _filenameChanged (w : World) : World :=
  if auto (props w) && truthy (filename (props w)) then readFile w else w.

Definition _contentChanged (w : World) : World :=
  if auto (props w) && truthy (filename (props w)) then writeFile w else w.

(** Assignments to the properties.  The component framework calls a
    property's observer, within the assignment, when the value changes;
    strings are compared by value, and a binary content counts as changed
    when its bytes are. *)
Definition assign_content (c : Content) (w : World) : World :=
  if Content_eq_dec (content (props w)) c then w
  else _contentChanged (with_props (put_content c) w).

Definition assign_filename (v : option string) (w : World) : World :=
  if filename_eq_dec (filename (props w)) v then w
  else _filenameChanged (with_props (put_filename v) w).

(** [readFile], lines 284-294: what is chained to [_readFileContents]. *)
Definition readFile_done (result : string) (w : World) : World :=
  let auto := auto (props w) in
  let w := with_props (put_auto false) w in
  let w := assign_content (CString result) w in
  let w := async (MRestoreAuto auto) w in
  fire "file-read" (Object [("content", VString result)]) w.

(** *** Callbacks

    What the source does when the platform completes a request: [fault] is
    the platform's verdict, [inr reason] the call of the error callback. *)

Definition answer {A : Type} (fault : option Reason) (served : A + Reason) : A + Reason :=
  match fault with
  | Some reason => inr reason
  | None => served
  end.

Definition message_of (message : option string) : Val :=
  match message with
  | Some m => VString m
  | None => VUndefined
  end.

Definition complete (t : Task) (fault : option Reason) (w : World) : World :=
  match t with
  | TRequestQuota bytes k =>                            (* lines 167-170 *)
      match fault with
      | Some e => mount_rejected k e w
      | None =>
          let grantedBytes := grant bytes in
          issue (TRequestFileSystem PERSISTENT grantedBytes k)
            (_setGrantedQuota grantedBytes w)
      end
  | TRequestFileSystem type bytes k =>                  (* lines 160-166 *)
      match fault with
      | Some e => mount_rejected k e w
      | None => mount_resolved k (_setFileSystem (LocalFileSystem type bytes) w)
      end
  | TSyncRequestFileSystem k =>                         (* sync, lines 24-32 *)
      match fault with
      | Some lastError => mount_rejected k lastError w
      | None => mount_resolved k (_setFileSystem SyncableFileSystem w)
      end
  | TQueryUsageAndQuota =>                              (* lines 183-195 *)
      match fault with
      | Some RUndefined => observe Uncaught w
      | Some (RError _ message) =>
          fire "error" (Object [("messager", message_of message)]) w
      | None =>
          fire "filesystem-usage"
            (Object [("usageBytes", VNumber (usageBytes (host w)));
                     ("quotaBytes", VNumber (quotaBytes (host w)))]) w
      end
  | TSyncGetUsageAndQuota =>                            (* sync, lines 46-51 *)
      match fault with
      | Some _ => observe Uncaught w
      | None =>
          fire "filesystem-usage"
            (Object [("usageBytes", VNumber (usageBytes (host w)));
                     ("quotaBytes", VNumber (quotaBytes (host w)))]) w
      end
  | TGetFile name k =>                                  (* lines 213-217, sync 76-80 *)
      match answer fault (host_getFile name (root (host w))) with
      | inl (fileEntry, d) => getFile_resolved k fileEntry (with_root d w)
      | inr reason => getFile_rejected k reason w
      end
  | TCreateWriter fileEntry WTruncate =>                (* lines 328-336 *)
      match fault with
      | Some e => fire "error" (Value (VReason e)) w
      | None => issue (TTruncate fileEntry 0) w
      end
  | TCreateWriter fileEntry WWrite =>                   (* lines 346-363 *)
      match fault with
      | Some e => fire "error" (Value (VReason e)) w
      | None =>
          match new_Blob (toWrite (content (props w))) (mime (props w)) with
          | Some blob => issue (TWrite fileEntry blob) w
          | None => observe Uncaught w
          end
      end
  | TTruncate fileEntry size =>                         (* lines 329-334, 260 *)
      match answer fault (host_truncate (entry_name fileEntry) size (root (host w))) with
      | inl d => getFile FKWrite (with_root d w)
      | inr e => fire "error" (Value (VReason e)) w
      end
  | TWrite fileEntry blob =>                            (* lines 347-352, 262 *)
      match answer fault (host_write (entry_name fileEntry) blob (root (host w))) with
      | inl d => fire "file-write" (Value VUndefined) (with_root d w)
      | inr e => fire "error" (Value (VReason e)) w
      end
  | TFile fileEntry =>                                  (* lines 306-317 *)
      match answer fault (host_read (entry_name fileEntry) (root (host w))) with
      | inl _ => issue (TReadAsText fileEntry) w
      | inr error => fire "error" (Value (VReason error)) w
      end
  | TReadAsText fileEntry =>                            (* lines 308-313 *)
      match answer fault (host_read (entry_name fileEntry) (root (host w))) with
      | inl data => readFile_done (decode data) w
      | inr error => fire "error" (Value (VReason error)) w
      end
  | TReadEntries sizes unread entries =>                (* lines 390-401 *)
      match fault with
      | Some reason => fire "error" (Value (VReason reason)) w
      | None =>
          let (results, reader) := next_page sizes unread in
          match results with
          | [] => fire "directory-read" (Object [("files", VEntries (sort entries))]) w
          | _ :: _ =>
              issue (TReadEntries (fst reader) (snd reader) (entries ++ results)) w
          end
      end
  | TRemove fileEntry =>                                (* lines 418-422 *)
      match answer fault (host_remove (entry_name fileEntry) (root (host w))) with
      | inl d => fire "removed" (Object []) (with_root d w)
      | inr reason => fire "error" (Value (VReason reason)) w
      end
  end.

(** ** The event loop *)

(** The platform completes the [i]-th request in flight. *)
Definition deliver (i : nat) (w : World) : World :=
  match pick i (pending w) with
  | None => w
  | Some (t, rest) =>
      let (fault, h) := next_fault (host w) in
      complete t fault (mkWorld (behavior w) (props w) h rest (microtasks w) (log w))
  end.

Definition run_microtask (w : World) (m : Microtask) : World :=
  match m with
  | MRestoreAuto saved => with_props (put_auto saved) w     (* line 289 *)
  end.

(** The callbacks given to [this.async] run when the current one returns. *)
Definition drain (w : World) : World :=
  fold_left run_microtask (microtasks w)
    (mkWorld (behavior w) (props w) (host w) (pending w) [] (log w)).

(** What the page does with an element: it calls a method, assigns a
    property, or lets the platform complete a request. *)
Inductive Action : Type :=
| Call_requestFilesystem
| Call_getUsageAndQuota
| Call_getFile
| Call_read
| Call_write
| Call_writeFile
| Call_readFile
| Call_list
| Call_remove
| Assign_filename (v : option string)
| Assign_content (c : Content)
| Assign_auto (b : bool)
| Assign_mime (m : string)
| Assign_quota (q : Z)
| Complete (i : nat).

Definition invoke (a : Action) (w : World) : World :=
  match a with
  | Call_requestFilesystem => requestFilesystem w
  | Call_getUsageAndQuota => getUsageAndQuota w
  | Call_getFile => getFile FKCaller w
  | Call_read => read w
  | Call_write => write w
  | Call_writeFile => writeFile w
  | Call_readFile => readFile w
  | Call_list => list_ w
  | Call_remove => remove w
  | Assign_filename v => assign_filename v w
  | Assign_content c => assign_content c w
  | Assign_auto b => with_props (put_auto b) w
  | Assign_mime m => with_props (put_mime m) w
  | Assign_quota q => with_props (put_quota q) w
  | Complete i => deliver i w
  end.

(** One turn of the event loop. *)
Definition act (a : Action) (w : World) : World := drain (invoke a w).

Definition exec (l : list Action) (w : World) : World :=
  fold_left (fun w a => act a w) l w.

(** The platform completes the oldest request, [n] times over. *)
Fixpoint run (n : nat) (w : World) : World :=
  match n with
  | O => w
  | S n' => run n' (act (Complete 0) w)
  end.

(** Nothing in flight and nothing deferred. *)
Definition quiescent (w : World) : Prop := pending w = [] /\ microtasks w = [].

(** An element as created, on a platform. *)
Definition element (b : Behavior) (h : Host) : World := mkWorld b created h [] [] [].

(** *** Mounting, as the statements below describe it *)

(** What a successful mount adds to the log, and how many requests it takes:
    nothing when the handle is already there. *)
Definition mount_log (w : World) : list Obs :=
  match fileSystem (props w) with
  | Some _ => []
  | None =>
      match behavior w with
      | WebFilesystemBehavior =>
          let g := grant (quota (props w)) in
          [Platform (RequestQuota (quota (props w))); SetGrantedQuota g;
           Platform (RequestFileSystem PERSISTENT g);
           SetFileSystem (LocalFileSystem PERSISTENT g)]
      | SyncFilesystemBehavior =>
          [Platform SyncRequestFileSystem; SetFileSystem SyncableFileSystem]
      end
  end.

Definition mount_turns (w : World) : nat :=
  match fileSystem (props w) with
  | Some _ => 0
  | None =>
      match behavior w with
      | WebFilesystemBehavior => 2
      | SyncFilesystemBehavior => 1
      end
  end.

(** The properties after a successful mount. *)
Definition mounted (w : World) : Props :=
  match fileSystem (props w) with
  | Some _ => props w
  | None =>
      match behavior w with
      | WebFilesystemBehavior =>
          let g := grant (quota (props w)) in
          put_fileSystem (LocalFileSystem PERSISTENT g) (put_grantedQuota g (props w))
      | SyncFilesystemBehavior => put_fileSystem SyncableFileSystem (props w)
      end
  end.

(** The platform reports no error. *)
Definition calm (w : World) : Prop := faults (host w) = [].

(** The outcomes in a stretch of the log: the events fired, the settling of
    a caller's promise, the exceptions nobody caught. *)
Definition is_outcome (o : Obs) : bool :=
  match o with
  | Fire _ _ | Resolved _ | Rejected _ | Uncaught => true
  | _ => false
  end.

Definition outcomes (l : list Obs) : list Obs := filter is_outcome l.

(** How often the [fileSystem] and the [grantedQuota] properties were
    written. *)
Definition handle_writes (l : list Obs) : nat :=
  List.length (filter (fun o => match o with SetFileSystem _ => true | _ => false end) l).

Definition quota_writes (l : list Obs) : nat :=
  List.length (filter (fun o => match o with SetGrantedQuota _ => true | _ => false end) l).

(** The mount requests sent to the platform. *)
Definition is_mount_request (o : Obs) : bool :=
  match o with
  | Platform (RequestQuota _) | Platform (RequestFileSystem _ _)
  | Platform SyncRequestFileSystem => true
  | _ => false
  end.

Definition mount_requests (l : list Obs) : nat := List.length (filter is_mount_request l).

(** A mount request in flight. *)
Definition mounting (t : Task) : bool :=
  match t with
  | TRequestQuota _ _ | TRequestFileSystem _ _ _ | TSyncRequestFileSystem _ => true
  | _ => false
  end.

Definition mounts_in_flight (w : World) : nat := List.length (filter mounting (pending w)).



(** The platform's verdict on the [i]-th request it completes from now. *)
Definition verdict (i : nat) (w : World) : option Reason := nth i (faults (host w)) None.

(** Traces of a write in the log, and requests that belong to a write. *)
Definition is_write_obs (o : Obs) : bool :=
  match o with
  | Platform (CreateWriter _) | Platform (Truncate _ _) | Platform (Write _ _) => true
  | Fire type _ => String.eqb type "file-write"
  | _ => false
  end.

Definition is_write_task (t : Task) : bool :=
  match t with
  | TRequestQuota _ (MKGetFile (FKTruncate | FKWrite))
  | TRequestFileSystem _ _ (MKGetFile (FKTruncate | FKWrite))
  | TSyncRequestFileSystem (MKGetFile (FKTruncate | FKWrite))
  | TGetFile _ (FKTruncate | FKWrite)
  | TCreateWriter _ _ | TTruncate _ _ | TWrite _ _ => true
  | _ => false
  end.


(** The pages a directory reader hands out, up to the empty one. *)
Fixpoint paginate (sizes : list nat) (unread : list Entry) : list (list Entry) :=
  match unread with
  | [] => []
  | _ :: _ =>
      match sizes with
      | [] => [unread]
      | n :: sizes' => firstn (S n) unread :: paginate sizes' (skipn (S n) unread)
      end
  end.

(** The verdicts left once the platform has given [k] of them. *)
Definition verdicts_from (k : nat) (fl : list (option Reason)) : list (option Reason) :=
  skipn k fl.

(** The requests a [readFile] sends. *)
Definition is_read_task (t : Task) : bool :=
  match t with
  | TRequestQuota _ (MKGetFile FKRead)
  | TRequestFileSystem _ _ (MKGetFile FKRead)
  | TSyncRequestFileSystem (MKGetFile FKRead)
  | TGetFile _ FKRead
  | TFile _ | TReadAsText _ => true
  | _ => false
  end.

Definition no_write_obs (l : list Obs) : bool :=
  forallb (fun o => negb (is_write_obs o)) l.

Definition no_write_task (l : list Task) : bool :=
  forallb (fun t => negb (is_write_task t)) l.

(** A [readFile] under way: at most its one request is in flight, nothing
    is deferred, and what it has logged since [lg0] has no trace of a
    write. *)
Definition reading (lg0 : list Obs) (W : World) : Prop :=
  (pending W = [] \/ exists t, pending W = [t] /\ is_read_task t = true) /\
  microtasks W = [] /\
  exists l, log W = lg0 ++ l /\ no_write_obs l = true.

(** Requests that are only sent once the handle is there. *)
Definition needs_handle (t : Task) : bool :=
  match t with
  | TGetFile _ _ | TCreateWriter _ _ | TTruncate _ _ => true
  | _ => false
  end.

(** The handle is set and no mount request is in flight: [c] writes of the
    handle and [r] mount requests so far. *)
Definition settled_mount (fs : FileSystem) (c r : nat) (W : World) : Prop :=
  fileSystem (props W) = Some fs /\ mounts_in_flight W = 0 /\
  handle_writes (log W) = c /\ mount_requests (log W) = r.

(** What a run without overlapping mounts keeps true, [c] being the writes
    of the handle before the run. *)
Definition mount_inv (c : nat) (W : World) : Prop :=
  match fileSystem (props W) with
  | None =>
      handle_writes (log W) = c /\ mounts_in_flight W <= 1 /\
      forallb (fun t => negb (needs_handle t)) (pending W) = true
  | Some _ => mounts_in_flight W = 0 /\ handle_writes (log W) <= S c
  end.


(** The failures the platform reports: those it is told to report and
    those of the root directory itself. *)
Definition reported (w : World) (r : Reason) : Prop :=
  In (Some r) (faults (host w)) \/ r = TypeMismatchError \/ r = NotFoundError.


(** The handle is set, no mount request is in flight, [grantedQuota] holds
    [g] and has been written [k] times. *)
Definition settled_quota (fs : FileSystem) (g : Z) (k : nat) (W : World) : Prop :=
  fileSystem (props W) = Some fs /\ mounts_in_flight W = 0 /\
  grantedQuota (props W) = g /\ quota_writes (log W) = k.

(** *** What the statements on whole runs speak of *)

(** What an action of the page assigns to the four properties that
    configure an element. *)
Definition configure (p : Props) (a : Action) : Props :=
  match a with
  | Assign_filename v => put_filename v p
  | Assign_auto b => put_auto b p
  | Assign_mime m => put_mime m p
  | Assign_quota q => put_quota q p
  | _ => p
  end.

Definition same_configuration (p p' : Props) : Prop :=
  quota p = quota p' /\ filename p = filename p' /\
  auto p = auto p' /\ mime p = mime p'.

(** The requests of the other behaviour's platform interface:
    [chrome.syncFileSystem] for the web behaviour, and for the sync
    behaviour [navigator.webkitPersistentStorage] and
    [window.requestFileSystem]. *)
Definition foreign (b : Behavior) (c : Call) : bool :=
  match b, c with
  | WebFilesystemBehavior, (SyncRequestFileSystem | SyncGetUsageAndQuota) => true
  | SyncFilesystemBehavior,
    (RequestQuota _ | RequestFileSystem _ _ | QueryUsageAndQuota) => true
  | _, _ => false
  end.

(** What the own platform interface of a behaviour leaves in the log. *)
Definition own_obs (b : Behavior) (o : Obs) : bool :=
  match o with
  | Platform c => negb (foreign b c)
  | SetGrantedQuota _ =>
      match b with WebFilesystemBehavior => true | SyncFilesystemBehavior => false end
  | _ => true
  end.

(** The requests a behaviour can have in flight: those of its own
    interface, a usage query being chained to a mount on the sync behaviour
    only. *)
Definition own_task (b : Behavior) (t : Task) : bool :=
  match b, t with
  | WebFilesystemBehavior, (TSyncRequestFileSystem _ | TSyncGetUsageAndQuota) => false
  | WebFilesystemBehavior, (TRequestQuota _ MKUsage | TRequestFileSystem _ _ MKUsage) =>
      false
  | SyncFilesystemBehavior,
    (TRequestQuota _ _ | TRequestFileSystem _ _ _ | TQueryUsageAndQuota) => false
  | _, _ => true
  end.

Definition own_backend (W : World) : Prop :=
  forallb (own_task (behavior W)) (pending W) = true /\
  forallb (own_obs (behavior W)) (log W) = true /\
  (behavior W = SyncFilesystemBehavior -> grantedQuota (props W) = 0%Z).

(** What the page can do without asking for a write or a removal, and the
    requests in flight that lead to no writer and to no removal. *)
Definition is_reading (a : Action) : bool :=
  match a with
  | Call_write | Call_writeFile | Call_remove | Assign_content _ => false
  | _ => true
  end.

Definition reads_only_file (k : FileK) : bool :=
  match k with
  | FKCaller | FKRead => true
  | FKTruncate | FKWrite | FKRemove => false
  end.

Definition reads_only_mount (k : MountK) : bool :=
  match k with
  | MKGetFile fk => reads_only_file fk
  | MKReady | MKList | MKUsage => true
  end.

Definition reads_only (t : Task) : bool :=
  match t with
  | TRequestQuota _ k | TRequestFileSystem _ _ k | TSyncRequestFileSystem k =>
      reads_only_mount k
  | TGetFile _ k => reads_only_file k
  | TQueryUsageAndQuota | TSyncGetUsageAndQuota
  | TFile _ | TReadAsText _ | TReadEntries _ _ _ => true
  | TCreateWriter _ _ | TTruncate _ _ | TWrite _ _ | TRemove _ => false
  end.

(** The requests in flight lead to no writer and to no removal, and the
    root has [x] under [name]. *)
Definition keeps (name : string) (x : Node) (W : World) : Prop :=
  forallb reads_only (pending W) = true /\ dir_lookup name (root (host W)) = Some x.

(** The requests in flight that are about a file are about the file
    [name], [filename] is [name], and the root has [v] under another name
    [name']. *)
Definition named (name : string) (t : Task) : bool :=
  match t with
  | TGetFile n _ => String.eqb n name
  | TCreateWriter e _ | TTruncate e _ | TWrite e _
  | TFile e | TReadAsText e | TRemove e => String.eqb (entry_name e) name
  | _ => true
  end.

Definition assigns_filename (a : Action) : bool :=
  match a with Assign_filename _ => true | _ => false end.

Definition touches_only (name name' : string) (v : option Node) (W : World) : Prop :=
  forallb (named name) (pending W) = true /\
  filename (props W) = Some name /\
  dir_lookup name' (root (host W)) = v.

(** *** Sample elements and platforms *)

Definition text (s : string) : list byte := list_byte_of_string s.

(** A user agent that grants at most 4096 bytes. *)
Definition sample_grant (q : Z) : Z := Z.min q 4096.

(** A root with two files, listed by the platform in this order. *)
Definition sample_root : list (string * Node) :=
  [("notes.txt", NFile (text "a longer text")); ("draft.txt", NFile [])].

Definition sample_host (fl : list (option Reason)) : Host :=
  mkHost sample_root [1; 0] fl 13%Z 4096%Z.

Definition sample_props (name : option string) (mirror : bool) (c : Content) : Props :=
  mkProps 1024%Z 0%Z name mirror c "text/plain" None.

Definition sample (b : Behavior) (name : option string) (mirror : bool) (c : Content)
    (fl : list (option Reason)) : World :=
  mkWorld b (sample_props name mirror c) (sample_host fl) [] [] [].

(** What [chrome.runtime.lastError] holds when the user is not signed in,
    with the error code inside the message and with nothing before it. *)
Definition lastError_inside : Reason :=
  RError "" (Some "Sync service unavailable: error code: -107").

Definition lastError_at_start : Reason := RError "" (Some "error code: -107").

Definition SecurityError : Reason := RError "SecurityError" None.

(** Five files, in an order of the platform's that is not that of their
    names, handed out in pages of two, two and one. *)
Definition five_files : Host :=
  mkHost [("e.txt", NFile []); ("b.txt", NFile []); ("a.txt", NFile []);
          ("d.txt", NFile []); ("c.txt", NFile [])]
         [1; 1; 0] [] 0%Z 4096%Z.


(** An element that has its handle already. *)
Definition mounted_sample (b : Behavior) (name : option string) (mirror : bool)
    (c : Content) (fl : list (option Reason)) : World :=
  mkWorld b
    (mkProps 1024%Z 1024%Z name mirror c "text/plain"
       (Some match b with
             | WebFilesystemBehavior => LocalFileSystem PERSISTENT 1024%Z
             | SyncFilesystemBehavior => SyncableFileSystem
             end))
    (sample_host fl) [] [] [].

(** A root with a directory between two files. *)
Definition mixed_root : Host :=
  mkHost [("b.txt", NFile []); ("logs", NDirectory); ("a.txt", NFile [])]
         [0; 0] [] 0%Z 4096%Z.

(** * Properties *)

(** ** The root directory *)

Lemma dir_lookup_new name x d :
  dir_lookup name d = None -> dir_lookup name (d ++ [(name, x)]) = Some x.
Proof.
  induction d as [|[n y] d IH]; simpl; intros H.
  - now rewrite String.eqb_refl.
  - destruct (String.eqb n name); [discriminate | auto].
Qed.

Lemma dir_lookup_update name x d :
  dir_lookup name d <> None -> dir_lookup name (dir_update name x d) = Some x.
Proof.
  induction d as [|[n y] d IH]; simpl; intros H.
  - congruence.
  - destruct (String.eqb n name) eqn:E; simpl; rewrite E; auto.
Qed.

Lemma dir_update_update name x y d :
  dir_update name y (dir_update name x d) = dir_update name y d.
Proof.
  induction d as [|[n z] d IH]; simpl; auto.
  destruct (String.eqb n name) eqn:E; simpl; rewrite E; auto. now rewrite IH.
Qed.

Lemma dir_lookup_remove name d : dir_lookup name (dir_remove name d) = None.
Proof.
  unfold dir_remove.
  induction d as [|[n z] d IH]; simpl; auto.
  destruct (String.eqb n name) eqn:E; simpl; auto. now rewrite E.
Qed.

Lemma dir_remove_absent name d :
  dir_lookup name d = None -> dir_remove name d = d.
Proof.
  unfold dir_remove.
  induction d as [|[n z] d IH]; simpl; auto.
  destruct (String.eqb n name) eqn:E; simpl; [discriminate|].
  intros H. now rewrite IH.
Qed.

Lemma dir_remove_new name x d :
  dir_lookup name d = None -> dir_remove name (d ++ [(name, x)]) = d.
Proof.
  intros H. unfold dir_remove. rewrite filter_app. simpl.
  rewrite String.eqb_refl. simpl. rewrite app_nil_r.
  now apply dir_remove_absent.
Qed.

Arguments dir_lookup : simpl never.
Arguments dir_update : simpl never.
Arguments dir_remove : simpl never.

Lemma host_getFile_inl name rt e d :
  host_getFile name rt = inl (e, d) ->
  e = mkEntry name false /\ exists data, dir_lookup name d = Some (NFile data).
Proof.
  unfold host_getFile.
  destruct (dir_lookup name rt) as [[data|]|] eqn:L; intros H; inversion H; subst.
  - split; [reflexivity | eauto].
  - split; [reflexivity | exists []; now apply dir_lookup_new].
Qed.

Lemma host_getFile_total name rt :
  dir_lookup name rt <> Some NDirectory ->
  exists d, host_getFile name rt = inl (mkEntry name false, d).
Proof.
  unfold host_getFile. destruct (dir_lookup name rt) as [[data|]|]; eauto.
  congruence.
Qed.

Lemma host_getFile_existing name d data :
  dir_lookup name d = Some (NFile data) ->
  host_getFile name d = inl (mkEntry name false, d).
Proof. unfold host_getFile. now intros ->. Qed.

Lemma host_truncate_zero name d data :
  dir_lookup name d = Some (NFile data) ->
  host_truncate name 0 d = inl (dir_update name (NFile []) d).
Proof. unfold host_truncate. now intros ->. Qed.

Lemma host_write_empty name b d :
  dir_lookup name d = Some (NFile []) ->
  host_write name b d = inl (dir_update name (NFile (blob_bytes b)) d).
Proof.
  unfold host_write. intros ->. now rewrite skipn_nil, app_nil_r.
Qed.

Lemma host_read_file name d data :
  dir_lookup name d = Some (NFile data) -> host_read name d = inl data.
Proof. unfold host_read. now intros ->. Qed.

Arguments host_getFile : simpl never.
Arguments host_truncate : simpl never.
Arguments host_write : simpl never.
Arguments host_read : simpl never.
Arguments host_remove : simpl never.
Arguments new_Blob : simpl never.
Arguments not_signed_in : simpl never.
Arguments sort : simpl never.

(** ** The event loop *)

Arguments run : simpl never.

Lemma run_S n w : run (S n) w = run n (act (Complete 0) w).
Proof. reflexivity. Qed.

Lemma run_O w : run 0 w = w.
Proof. reflexivity. Qed.

Lemma run_add n m w : run (n + m) w = run m (run n w).
Proof.
  revert w. induction n as [|n IH]; intros w; [reflexivity|].
  simpl. rewrite !run_S. apply IH.
Qed.

Lemma act_quiescent w : quiescent w -> act (Complete 0) w = w.
Proof. destruct w as [b p h ts ms lg]. intros [H1 H2]. simpl in *. now subst. Qed.

Lemma run_quiescent n w : quiescent w -> run n w = w.
Proof.
  intros H. induction n as [|n IH]; [reflexivity|].
  rewrite run_S, act_quiescent; auto.
Qed.

(** Once a run has come to rest, more turns change nothing. *)
Lemma run_rest n m w : quiescent (run n w) -> n <= m -> run m w = run n w.
Proof.
  intros H Hle. replace m with (n + (m - n)) by lia.
  rewrite run_add. now apply run_quiescent.
Qed.

Lemma act_first b p h t rest lg :
  act (Complete 0) (mkWorld b p h (t :: rest) [] lg) =
  drain (complete t (fst (next_fault h))
           (mkWorld b p (snd (next_fault h)) rest [] lg)).
Proof. unfold act, invoke, deliver. cbn. now destruct (next_fault h). Qed.

Ltac turn :=
  rewrite run_S, act_first; unfold complete, answer; cbv beta iota; cbn.

Ltac tidy :=
  unfold mount_resolved, mount_rejected, getFile_resolved, getFile_rejected,
    _truncate, _writeFileEntry, _readFileContents, fire, observe, issue, async,
    _setFileSystem, _setGrantedQuota, with_props, with_root,
    put_auto, put_content, put_filename, put_mime, put_quota,
    put_grantedQuota, put_fileSystem;
  cbn; repeat rewrite <- app_assoc; cbn [app].

Ltac open_world w :=
  let b := fresh "b" in let p := fresh "p" in let h := fresh "h" in
  let ts := fresh "ts" in let ms := fresh "ms" in let lg := fresh "lg" in
  destruct w as [b p h ts ms lg];
  let q := fresh "q" in let g := fresh "g" in let f := fresh "f" in
  let a := fresh "a" in let c := fresh "c" in let m := fresh "m" in
  let fs := fresh "fs" in
  destruct p as [q g f a c m fs];
  let rt := fresh "rt" in let pg := fresh "pg" in let fl := fresh "fl" in
  let ub := fresh "ub" in let qb := fresh "qb" in
  destruct h as [rt pg fl ub qb];
  unfold quiescent, calm in *; simpl in *.

(** A mount the platform serves: the promise resolves after [mount_turns]
    requests. *)
Lemma mount_run (k : MountK) (w : World) :
  quiescent w -> calm w ->
  run (mount_turns w) (_requestFilesystem k w) =
  mount_resolved k
    (mkWorld (behavior w) (mounted w) (host w) [] [] (log w ++ mount_log w)).
Proof.
  open_world w. intros [-> ->] ->.
  destruct b, fs as [fs|]; cbn.
  - rewrite run_O, app_nil_r. reflexivity.
  - tidy. turn. tidy. turn. rewrite run_O. destruct k; cbn; tidy; reflexivity.
  - rewrite run_O, app_nil_r. reflexivity.
  - tidy. turn. rewrite run_O. destruct k; cbn; tidy; reflexivity.
Qed.

(** A chain that is one mount away from [w']. *)
Lemma after_mount (k : MountK) (n : nat) (w : World) :
  quiescent w -> calm w ->
  run (mount_turns w + n) (_requestFilesystem k w) =
  run n (mount_resolved k
    (mkWorld (behavior w) (mounted w) (host w) [] [] (log w ++ mount_log w))).
Proof. intros Hq Hc. now rewrite run_add, mount_run. Qed.

(** What a mount changes in the properties. *)
Lemma mounted_shape (w : World) :
  exists g fs,
    mounted w = mkProps (quota (props w)) g (filename (props w)) (auto (props w))
                  (content (props w)) (mime (props w)) (Some fs) /\
    (forall fs0, fileSystem (props w) = Some fs0 -> fs = fs0 /\ g = grantedQuota (props w)).
Proof.
  destruct w as [b [q g f a c m fs] h ts ms lg]. unfold mounted. cbn.
  destruct fs as [fs|]; [|destruct b]; cbn; do 2 eexists; split; try reflexivity;
    try discriminate.
  intros fs0 H. inversion H. auto.
Qed.

Lemma writeFile_run (w : World) (blob : Blob) (fileEntry : Entry)
      (d : list (string * Node)) :
  quiescent w -> calm w ->
  new_Blob (toWrite (content (props w))) (mime (props w)) = Some blob ->
  host_getFile (ToString (filename (props w))) (root (host w)) = inl (fileEntry, d) ->
  let name := ToString (filename (props w)) in
  run (mount_turns w + 6) (writeFile w) =
  mkWorld (behavior w) (mounted w)
    (mkHost (dir_update name (NFile (blob_bytes blob)) d) (pages (host w)) []
       (usageBytes (host w)) (quotaBytes (host w)))
    [] []
    (log w ++ mount_log w ++
     [Platform (RootGetFile name true); Platform (CreateWriter name);
      Platform (Truncate name 0);
      Platform (RootGetFile name true); Platform (CreateWriter name);
      Platform (Write name blob); Fire "file-write" (Value VUndefined)]).
Proof.
  intros Hq Hc Hblob Hget name. unfold writeFile, getFile.
  rewrite after_mount by assumption.
  destruct (mounted_shape w) as (g' & fs' & -> & _).
  open_world w. destruct Hq as [-> ->]. subst fl.
  destruct (host_getFile_inl _ _ _ _ Hget) as [-> [data L]].
  pose proof (host_truncate_zero _ _ _ L) as Ht.
  assert (L' : dir_lookup (ToString f) (dir_update (ToString f) (NFile []) d)
               = Some (NFile [])).
  { apply dir_lookup_update. congruence. }
  pose proof (host_getFile_existing _ _ _ L') as Hg'.
  pose proof (host_write_empty _ blob _ L') as Hw.
  rewrite dir_update_update in Hw.
  tidy. turn. rewrite Hget. tidy. turn. tidy. turn. rewrite Ht. tidy.
  turn. rewrite Hg'. tidy. turn. rewrite Hblob. tidy. turn. rewrite Hw. tidy.
  rewrite run_O. reflexivity.
Qed.

Lemma drain_idle w : microtasks w = [] -> drain w = w.
Proof. destruct w as [b p h ts ms lg]. cbn. now intros ->. Qed.

Lemma microtasks_requestFilesystem k w :
  microtasks (_requestFilesystem k w) = microtasks w.
Proof.
  unfold _requestFilesystem.
  destruct (fileSystem (props w)); [destruct k | destruct (behavior w)]; reflexivity.
Qed.

(** Calling a method that only mounts and sends a request, in a turn of its
    own. *)
Lemma act_requestFilesystem k w :
  microtasks w = [] -> drain (_requestFilesystem k w) = _requestFilesystem k w.
Proof. intros H. apply drain_idle. now rewrite microtasks_requestFilesystem. Qed.

Lemma host_read_inv name d data :
  host_read name d = inl data -> dir_lookup name d = Some (NFile data).
Proof.
  unfold host_read. destruct (dir_lookup name d) as [[x|]|]; intros H; now inversion H.
Qed.

(** ** Writing *)


(** ** Reading *)

Lemma readFile_run (w : World) (data : list byte) :
  quiescent w -> calm w ->
  host_read (ToString (filename (props w))) (root (host w)) = inl data ->
  let name := ToString (filename (props w)) in
  run (mount_turns w + 3) (readFile w) =
  mkWorld (behavior w) (put_content (CString (decode data)) (mounted w)) (host w)
    [] []
    (log w ++ mount_log w ++
     [Platform (RootGetFile name true); Platform (File name);
      Platform (ReadAsText name);
      Fire "file-read" (Object [("content", VString (decode data))])]).
Proof.
  intros Hq Hc Hread name. unfold readFile, getFile.
  rewrite after_mount by assumption.
  destruct (mounted_shape w) as (g' & fs' & -> & _).
  subst name. open_world w. destruct Hq as [-> ->]. subst fl.
  pose proof (host_read_inv _ _ _ Hread) as L.
  pose proof (host_getFile_existing _ _ _ L) as Hget.
  tidy. turn. rewrite Hget. tidy. turn. rewrite Hread. tidy.
  turn. rewrite Hread. unfold readFile_done, assign_content. tidy.
  destruct (Content_eq_dec c (CString (decode data))) as [->|Hne];
    unfold _contentChanged; tidy; rewrite run_O; reflexivity.
Qed.



(** ** Listing *)

Lemma paginate_concat sizes unread : List.concat (paginate sizes unread) = unread.
Proof.
  revert unread. induction sizes as [|n sizes IH]; intros [|e u]; cbn; auto.
  - now rewrite app_nil_r.
  - rewrite IH. f_equal. apply firstn_skipn.
Qed.

Lemma paginate_nonempty sizes unread :
  Forall (fun page => page <> []) (paginate sizes unread).
Proof.
  revert unread. induction sizes as [|n sizes IH]; intros [|e u]; cbn; auto.
  - constructor; [discriminate | constructor].
  - constructor; [discriminate | apply IH].
Qed.

(** Every way of cutting a listing into non-empty pages is the platform's
    way for some page sizes. *)
Lemma paginate_any (pgs : list (list Entry)) :
  Forall (fun page => page <> []) pgs ->
  paginate (map (fun page => pred (List.length page)) pgs) (List.concat pgs) = pgs.
Proof.
  induction 1 as [|page pgs Hne _ IH]; [reflexivity|].
  destruct page as [|e page]; [congruence|]. cbn.
  rewrite firstn_app, firstn_all, Nat.sub_diag, app_nil_r.
  rewrite skipn_app, skipn_all, Nat.sub_diag. cbn. now rewrite IH.
Qed.

Lemma sort_insert_files x l :
  isDirectory x = false -> Forall (fun e => isDirectory e = false) l ->
  sort_insert x l = x :: l.
Proof.
  intros Hx Hl. destruct l as [|y l]; [reflexivity|].
  inversion Hl; subst. cbn. unfold Entry_toString. rewrite Hx, H1. reflexivity.
Qed.




Lemma readEntries_run sizes : forall unread entries b p rt pg ub qb lg,
  run (S (List.length (paginate sizes unread)))
    (mkWorld b p (mkHost rt pg [] ub qb) [TReadEntries sizes unread entries] [] lg) =
  mkWorld b p (mkHost rt pg [] ub qb) [] []
    (lg ++ repeat (Platform ReadEntries) (List.length (paginate sizes unread)) ++
     [Fire "directory-read" (Object [("files", VEntries (sort (entries ++ unread)))])]).
Proof.
  induction sizes as [|n sizes IH]; intros [|e u] entries b p rt pg ub qb lg.
  - cbn [paginate List.length repeat]. turn. tidy. rewrite run_O, app_nil_r. reflexivity.
  - cbn [paginate List.length repeat]. turn. tidy. turn. tidy. rewrite run_O. reflexivity.
  - cbn [paginate List.length repeat]. turn. tidy. rewrite run_O, app_nil_r. reflexivity.
  - cbn [paginate List.length repeat]. rewrite run_S, act_first.
    unfold complete. cbn. tidy. rewrite IH. tidy.
    now rewrite firstn_skipn.
Qed.

(** What [list] does on a platform that reports no error: it reads the
    pages up to the empty one and fires [directory-read] with every entry of
    the root, as many as the root has. *)
Lemma list_run (w : World) :
  quiescent w -> calm w ->
  let entries := dir_entries (root (host w)) in
  let pgs := paginate (pages (host w)) entries in
  run (mount_turns w + S (List.length pgs)) (list_ w) =
  mkWorld (behavior w) (mounted w) (host w) [] []
    (log w ++ mount_log w ++
     Platform CreateReader :: repeat (Platform ReadEntries) (S (List.length pgs)) ++
     [Fire "directory-read" (Object [("files", VEntries (sort entries))])]).
Proof.
  intros Hq Hc entries pgs. unfold list_, _listImpl.
  rewrite after_mount by assumption.
  subst pgs entries. open_world w. destruct Hq as [-> ->]. subst fl.
  tidy. rewrite readEntries_run. tidy. reflexivity.
Qed.

(** ** Failures *)

Lemma skipn_nth_nil {A} (d : A) k (l : list A) :
  skipn k l = [] -> nth k l d = d /\ skipn (S k) l = [].
Proof.
  revert l. induction k as [|k IH]; intros [|x l] H; cbn in *; auto; discriminate.
Qed.

Lemma skipn_nth_cons {A} (d : A) k (l : list A) x r :
  skipn k l = x :: r -> nth k l d = x /\ skipn (S k) l = r.
Proof.
  revert l. induction k as [|k IH]; intros [|y l] H; cbn in *; try discriminate.
  - inversion H. auto.
  - destruct (IH _ H). auto.
Qed.

Arguments verdicts_from : simpl never.

(** The platform completes the oldest request, its [k]-th verdict being
    the next. *)
Lemma act_first_at b p rt pg fl k ub qb t rest lg :
  act (Complete 0)
    (mkWorld b p (mkHost rt pg (verdicts_from k fl) ub qb) (t :: rest) [] lg) =
  drain (complete t (nth k fl None)
           (mkWorld b p (mkHost rt pg (verdicts_from (S k) fl) ub qb) rest [] lg)).
Proof.
  unfold act, invoke, deliver, next_fault, verdicts_from.
  cbn [pending pick host faults].
  destruct (skipn k fl) as [|x r] eqn:E.
  - destruct (skipn_nth_nil None _ _ E) as [-> ->]. reflexivity.
  - destruct (skipn_nth_cons None _ _ _ _ E) as [-> ->]. reflexivity.
Qed.

Lemma nth_Some_In (fl : list (option Reason)) i r :
  nth i fl None = Some r -> In (Some r) fl.
Proof.
  intros H. destruct (Nat.lt_ge_cases i (List.length fl)) as [Hlt|Hge].
  - rewrite <- H. now apply nth_In.
  - rewrite nth_overflow in H by assumption. discriminate.
Qed.

Lemma host_getFile_inr name rt r :
  host_getFile name rt = inr r ->
  r = TypeMismatchError /\ dir_lookup name rt = Some NDirectory.
Proof.
  unfold host_getFile.
  destruct (dir_lookup name rt) as [[data|]|]; intros H; inversion H; auto.
Qed.

Lemma host_getFile_not_dir name rt e d :
  host_getFile name rt = inl (e, d) -> dir_lookup name rt <> Some NDirectory.
Proof.
  unfold host_getFile.
  destruct (dir_lookup name rt) as [[data|]|]; intros H; inversion H; discriminate.
Qed.

Lemma host_remove_file name d data :
  dir_lookup name d = Some (NFile data) -> host_remove name d = inl (dir_remove name d).
Proof. unfold host_remove. now intros ->. Qed.

Ltac turn_at :=
  rewrite run_S, act_first_at; unfold complete, answer; cbv beta iota; cbn.

Ltac turn_at_in E :=
  rewrite run_S, act_first_at in E; unfold complete, answer in E;
  cbv beta iota in E; cbn in E.

Ltac tidy_in E :=
  unfold mount_resolved, mount_rejected, getFile_resolved, getFile_rejected,
    _truncate, _writeFileEntry, _readFileContents, fire, observe, issue, async,
    _setFileSystem, _setGrantedQuota, with_props, with_root,
    put_auto, put_content, put_filename, put_mime, put_quota,
    put_grantedQuota, put_fileSystem in E;
  cbn in E; repeat rewrite <- app_assoc in E; cbn [app] in E.

Ltac rest_in E := rewrite run_quiescent in E by (split; reflexivity).

(** Every verdict below a bound is known to be [None]. *)
Ltac served :=
  let i := fresh "i" in let Hi := fresh "Hi" in
  intros i Hi; repeat (destruct i as [|i]; [assumption|]); exfalso; cbn in Hi; lia.

Ltac failed_at k :=
  exists k; split; [cbn; lia | congruence].

Lemma remove_tail b q g f a c m fs rt pg fl k ub qb lg name :
  let W0 := mkWorld b (mkProps q g f a c m (Some fs))
              (mkHost rt pg (verdicts_from k fl) ub qb)
              [TGetFile name FKRemove] [] lg in
  let W := run 2 W0 in
  quiescent W /\
  ((nth k fl None = None /\ nth (S k) fl None = None /\
    dir_lookup name rt <> Some NDirectory /\
    log W = lg ++ [Platform (EntryRemove name); Fire "removed" (Object [])] /\
    dir_lookup name (root (host W)) = None /\
    faults (host W) = verdicts_from (S (S k)) fl)
   \/
   ((nth k fl None <> None \/ nth (S k) fl None <> None \/
     dir_lookup name rt = Some NDirectory) /\
    exists l r,
      log W = lg ++ l /\ outcomes l = [Fire "error" (Value (VReason r))] /\
      (In (Some r) fl \/ r = TypeMismatchError))).
Proof.
  intros W0 W. remember W as X eqn:E. subst W W0.
  turn_at_in E.
  destruct (nth k fl None) as [r0|] eqn:V0.
  { tidy_in E. rest_in E. subst X. cbn. split; [split; reflexivity|].
    right. split; [left; discriminate|].
    exists [Fire "error" (Value (VReason r0))], r0.
    repeat split. left. eapply nth_Some_In; eauto. }
  destruct (host_getFile name rt) as [[e d]|r] eqn:G.
  2:{ tidy_in E. rest_in E. subst X. cbn. split; [split; reflexivity|].
    destruct (host_getFile_inr _ _ _ G) as [-> D].
    right. split; [auto|].
    exists [Fire "error" (Value (VReason TypeMismatchError))], TypeMismatchError.
    repeat split. auto. }
  destruct (host_getFile_inl _ _ _ _ G) as [-> [data L]].
  pose proof (host_getFile_not_dir _ _ _ _ G) as ND.
  tidy_in E. turn_at_in E. rewrite (host_remove_file _ _ _ L) in E.
  destruct (nth (S k) fl None) as [r1|] eqn:V1.
  { tidy_in E. rewrite run_O in E. subst X. cbn. split; [split; reflexivity|].
    right. split; [right; left; discriminate|].
    exists [Platform (EntryRemove name); Fire "error" (Value (VReason r1))], r1.
    repeat split. left. eapply nth_Some_In; eauto. }
  tidy_in E. rewrite run_O in E. subst X. cbn. split; [split; reflexivity|].
  left. repeat split; auto. apply dir_lookup_remove.
Qed.

(** C7: [remove] with an empty or missing [filename] fires [error] at once
    and sends nothing to the platform.  With a file name it obtains the
    file handle and asks for the file to be deleted: when the platform
    serves every request the file is gone and [removed] is fired, and when
    the platform fails one of them the only thing fired is [error], with
    the reason of the failure. *)
Theorem remove_spec (w : World) :
  (truthy (filename (props w)) = false ->
     remove w = fire "error" (Value (VReason (Error "Filename not present."))) w /\
     pending (remove w) = pending w /\
     log (remove w) =
       log w ++ [Fire "error" (Value (VReason (Error "Filename not present.")))]) /\
  (truthy (filename (props w)) = true -> quiescent w ->
     let name := ToString (filename (props w)) in
     let w' := run 4 (remove w) in
     quiescent w' /\
     (((forall i, i < mount_turns w + 2 -> verdict i w = None) /\
       dir_lookup name (root (host w)) <> Some NDirectory /\
       log w' = log w ++ mount_log w ++
                [Platform (RootGetFile name true); Platform (EntryRemove name);
                 Fire "removed" (Object [])] /\
       dir_lookup name (root (host w')) = None)
      \/
      (((exists i, i < mount_turns w + 2 /\ verdict i w <> None) \/
        dir_lookup name (root (host w)) = Some NDirectory) /\
       exists l r,
         log w' = log w ++ l /\
         outcomes l = [Fire "error" (Value (VReason r))] /\
         (In (Some r) (faults (host w)) \/ r = TypeMismatchError \/
          r = Error not_signed_in_message)))).
Proof.
  split.
  - intros H. unfold remove. rewrite H. cbn. auto.
  - intros H Hq name w'.
    remember w' as W eqn:E. subst w' name. unfold remove in E. rewrite H in E.
    cbn [negb] in E. unfold getFile, _requestFilesystem in E.
    unfold mount_turns, mount_log, verdict.
    open_world w. destruct Hq as [-> ->].
    change fl with (verdicts_from 0 fl) in E.
    destruct fs as [fs|]; [|destruct b].
    + tidy_in E.
      pose proof (remove_tail b q g f a c m fs rt pg fl 0 ub qb
                    (lg ++ [Platform (RootGetFile (ToString f) true)]) (ToString f)) as T.
      cbv zeta in T. destruct T as [Tq T].
      rewrite (run_rest 2 4) in E by (assumption || lia). rewrite <- E in *.
      split; [assumption|].
      destruct T as [(V0 & V1 & ND & Hl & Hr & _)|(Hf & l & r & Hl & Ho & Hr)].
      * left. split; [served|]. rewrite Hl. tidy. auto.
      * right. split.
        { destruct Hf as [Hf|[Hf|Hf]]; [left; failed_at 0|left; failed_at 1|auto]. }
        exists (Platform (RootGetFile (ToString f) true) :: l), r.
        rewrite Hl. tidy. repeat split; auto. tauto.
    + tidy_in E. turn_at_in E.
      destruct (nth 0 fl None) as [r0|] eqn:V0.
      { tidy_in E. rest_in E. subst W. cbn. split; [split; reflexivity|].
        right. split; [left; failed_at 0|].
        do 2 eexists. split; [reflexivity|]. split; [reflexivity|].
        left. eapply nth_Some_In; eauto. }
      tidy_in E. turn_at_in E.
      destruct (nth 1 fl None) as [r1|] eqn:V1.
      { tidy_in E. rest_in E. subst W. cbn. split; [split; reflexivity|].
        right. split; [left; failed_at 1|].
        do 2 eexists. split; [reflexivity|]. split; [reflexivity|].
        left. eapply nth_Some_In; eauto. }
      tidy_in E.
      match type of E with W = run 2 (mkWorld _ _ _ _ _ ?lg1) =>
        pose proof (remove_tail WebFilesystemBehavior q (grant q) f a c m
                      (LocalFileSystem PERSISTENT (grant q)) rt pg fl 2 ub qb
                      lg1 (ToString f)) as T end.
      cbv zeta in T. destruct T as [Tq T]. rewrite <- E in *.
      split; [assumption|].
      destruct T as [(V2 & V3 & ND & Hl & Hr & _)|(Hf & l & r & Hl & Ho & Hr)].
      * left. split; [served|]. rewrite Hl. tidy. auto.
      * right. split.
        { destruct Hf as [Hf|[Hf|Hf]]; [left; failed_at 2|left; failed_at 3|auto]. }
        eexists. exists r. rewrite Hl. tidy. split; [reflexivity|].
        split; [exact Ho | tauto].
    + tidy_in E. turn_at_in E.
      destruct (nth 0 fl None) as [r0|] eqn:V0.
      { destruct (not_signed_in r0) eqn:N; tidy_in E; rest_in E; subst W; cbn;
          (split; [split; reflexivity|]);
          right; (split; [left; failed_at 0|]);
          do 2 eexists; (split; [reflexivity|]); (split; [reflexivity|]).
        - auto.
        - left. eapply nth_Some_In; eauto. }
      tidy_in E.
      match type of E with W = run 3 (mkWorld _ _ _ _ _ ?lg1) =>
        pose proof (remove_tail SyncFilesystemBehavior q g f a c m
                      SyncableFileSystem rt pg fl 1 ub qb
                      lg1 (ToString f)) as T end.
      cbv zeta in T. destruct T as [Tq T].
      rewrite (run_rest 2 3) in E by (assumption || lia). rewrite <- E in *.
      split; [assumption|].
      destruct T as [(V2 & V3 & ND & Hl & Hr & _)|(Hf & l & r & Hl & Ho & Hr)].
      * left. split; [served|]. rewrite Hl. tidy. auto.
      * right. split.
        { destruct Hf as [Hf|[Hf|Hf]]; [left; failed_at 1|left; failed_at 2|auto]. }
        eexists. exists r. rewrite Hl. tidy. split; [reflexivity|].
        split; [exact Ho | tauto].
Qed.

(** C10: when [filename] names no existing file, [remove] creates the file,
    because the handle is obtained with [{create: true}], then deletes it,
    and fires [removed]: no error is reported for the missing file. *)
Theorem remove_missing_creates_then_deletes (w : World) :
  quiescent w -> calm w ->
  truthy (filename (props w)) = true ->
  dir_lookup (ToString (filename (props w))) (root (host w)) = None ->
  let name := ToString (filename (props w)) in
  let m := mount_turns w in
  let w1 := run (m + 1) (remove w) in
  let w2 := run (m + 2) (remove w) in
  (pending w1 = [TRemove (mkEntry name false)] /\
   root (host w1) = root (host w) ++ [(name, NFile [])] /\
   log w1 = log w ++ mount_log w ++
            [Platform (RootGetFile name true); Platform (EntryRemove name)]) /\
  (quiescent w2 /\
   root (host w2) = root (host w) /\
   log w2 = log w ++ mount_log w ++
            [Platform (RootGetFile name true); Platform (EntryRemove name);
             Fire "removed" (Object [])]).
Proof.
  intros Hq Hc Ht Hmiss name m w1 w2. subst w1 w2 m.
  unfold remove. rewrite Ht. cbn [negb]. unfold getFile.
  rewrite !after_mount by assumption.
  destruct (mounted_shape w) as (g' & fs' & -> & _).
  subst name. open_world w. destruct Hq as [-> ->]. subst fl.
  assert (Hget : host_getFile (ToString f) rt
                 = inl (mkEntry (ToString f) false, rt ++ [(ToString f, NFile [])])).
  { unfold host_getFile. now rewrite Hmiss. }
  assert (Hrm : host_remove (ToString f) (rt ++ [(ToString f, NFile [])]) = inl rt).
  { unfold host_remove. rewrite (dir_lookup_new _ _ _ Hmiss).
    now rewrite dir_remove_new. }
  split.
  - tidy. turn. rewrite Hget. tidy. rewrite run_O. cbn. auto.
  - tidy. turn. rewrite Hget. tidy. turn. rewrite Hrm. tidy. rewrite run_O. cbn.
    repeat split.
Qed.

(** ** Mirror mode *)

Arguments Content_eq_dec : simpl never.
Arguments filename_eq_dec : simpl never.

Lemma no_write_obs_app l1 l2 :
  no_write_obs l1 = true -> no_write_obs l2 = true -> no_write_obs (l1 ++ l2) = true.
Proof. unfold no_write_obs. intros H1 H2. now rewrite forallb_app, H1, H2. Qed.

Ltac reading_done :=
  split; [first [left; reflexivity | right; eexists; split; reflexivity] |];
  split; [reflexivity |];
  eexists; split; [reflexivity | apply no_write_obs_app; [assumption | reflexivity]].

Ltac split_cases :=
  repeat (tidy;
    match goal with
    | |- context [match ?v with Some _ => _ | None => _ end] => is_var v; destruct v
    | |- context [if not_signed_in ?r then _ else _] => destruct (not_signed_in r)
    | |- context [host_getFile ?n ?d] => destruct (host_getFile n d) as [[? ?]|?]
    | |- context [host_read ?n ?d] => destruct (host_read n d)
    | |- context [Content_eq_dec ?a ?b] => destruct (Content_eq_dec a b)
    | |- context [match ?b with WebFilesystemBehavior => _ | SyncFilesystemBehavior => _ end] =>
        is_var b; destruct b
    end).

Lemma reading_step lg0 W : reading lg0 W -> reading lg0 (act (Complete 0) W).
Proof.
  intros (Hp & Hm & l0 & Hl & Hw).
  destruct Hp as [Hp|(t & Hp & Ht)].
  - rewrite act_quiescent by (split; assumption).
    split; [auto|]. split; [assumption|]. eauto.
  - destruct W as [b [q g f a c m fs] h ts ms lg]. cbn in Hp, Hm, Hl. subst ts ms lg.
    rewrite act_first. destruct (next_fault h) as [v h']. cbn [fst snd].
    destruct h' as [rt pg fl ub qb].
    destruct t as [bytes k|ty bytes k|k| | |name k|e k|e sz|e bl|e|e|sz u es|e];
      try discriminate Ht;
      try (destruct k as [|[]| |]; try discriminate Ht);
      try (destruct k; try discriminate Ht);
      unfold complete, answer, readFile_done, assign_content, _contentChanged;
      cbv beta iota; split_cases; tidy; reading_done.
Qed.

Lemma reading_run lg0 n : forall W, reading lg0 W -> reading lg0 (run n W).
Proof.
  induction n as [|n IH]; intros W H; [exact H|].
  rewrite run_S. apply IH. now apply reading_step.
Qed.

Lemma reading_start (w : World) : quiescent w -> reading (log w) (readFile w).
Proof.
  intros [Hp Hm]. destruct w as [b [q g f a c m fs] h ts ms lg]. cbn in Hp, Hm.
  subst ts ms. unfold readFile, getFile, _requestFilesystem. cbn.
  destruct fs as [fs|]; [|destruct b]; tidy;
    (split; [right; eexists; split; reflexivity|]);
    (split; [reflexivity|]); eexists; (split; [reflexivity|]); reflexivity.
Qed.

(** C6: in mirror mode a [readFile] starts no [writeFile].  Whatever the
    platform answers and however long the run, the only requests in flight
    are those of the read, and no writer is asked for, nothing is truncated
    or written and no [file-write] is fired.  When the file is read, the
    callback of [readFile] leaves [auto] switched off, with the text in
    [content] and the restoring of [auto] deferred; [auto] is on again once
    the deferred callback has run. *)
Theorem readFile_starts_no_write (w : World) :
  quiescent w -> auto (props w) = true ->
  (forall n,
     no_write_task (pending (run n (readFile w))) = true /\
     exists l, log (run n (readFile w)) = log w ++ l /\ no_write_obs l = true) /\
  (calm w ->
   forall data,
     host_read (ToString (filename (props w))) (root (host w)) = inl data ->
     let name := ToString (filename (props w)) in
     let before := run (mount_turns w + 2) (readFile w) in
     let during := deliver 0 before in
     let after := drain during in
     pending before = [TReadAsText (mkEntry name false)] /\
     (auto (props during) = false /\
      content (props during) = CString (decode data) /\
      microtasks during = [MRestoreAuto true] /\
      pending during = [] /\
      log during = log before ++
                   [Fire "file-read" (Object [("content", VString (decode data))])]) /\
     (after = run (mount_turns w + 3) (readFile w) /\
      auto (props after) = true /\
      content (props after) = CString (decode data) /\
      quiescent after /\
      log after = log during)).
Proof.
  intros Hq Ha. split.
  - intros n.
    destruct (reading_run (log w) n _ (reading_start w Hq)) as (Hp & _ & Hl).
    split; [|exact Hl].
    destruct Hp as [->|(t & -> & Ht)]; [reflexivity|].
    unfold no_write_task. cbn. rewrite andb_true_r.
    destruct t as [bytes k|ty bytes k|k| | |name k|e k|e sz|e bl|e|e|sz u es|e];
      try discriminate Ht; try (destruct k as [|[]| |]; try discriminate Ht);
      try (destruct k; try discriminate Ht); reflexivity.
  - intros Hc data Hread name before during after.
    assert (Hafter : after = run (mount_turns w + 3) (readFile w)).
    { subst after during before.
      replace (mount_turns w + 3) with (mount_turns w + 2 + 1) by lia.
      rewrite (run_add (mount_turns w + 2) 1). reflexivity. }
    subst after during before name. rewrite Hafter. clear Hafter.
    unfold readFile, getFile. rewrite !after_mount by assumption.
    destruct (mounted_shape w) as (g' & fs' & -> & _).
    open_world w. destruct Hq as [-> ->]. subst fl a.
    pose proof (host_read_inv _ _ _ Hread) as L.
    pose proof (host_getFile_existing _ _ _ L) as Hget.
    match goal with |- context [mount_log ?x] => set (ML := mount_log x) end.
    match goal with |- context [run 2 ?X] => set (W0 := X) end.
    assert (Hbefore :
      run 2 W0 =
      mkWorld b (mkProps q g' f true c m (Some fs')) (mkHost rt pg [] ub qb)
        [TReadAsText (mkEntry (ToString f) false)] []
        (lg ++ ML ++
         [Platform (RootGetFile (ToString f) true); Platform (File (ToString f));
          Platform (ReadAsText (ToString f))])).
    { subst W0. tidy. turn. rewrite Hget. tidy. turn. rewrite Hread. tidy.
      rewrite run_O. reflexivity. }
    rewrite Hbefore.
    change (run 3 W0) with (run (2 + 1) W0). rewrite run_add, Hbefore.
    rewrite run_S, run_O. unfold act, invoke.
    match goal with |- context [deliver 0 ?X] => set (D := deliver 0 X) end.
    assert (HD : D =
      mkWorld b (mkProps q g' f false (CString (decode data)) m (Some fs'))
        (mkHost rt pg [] ub qb) [] [MRestoreAuto true]
        (lg ++ ML ++
         [Platform (RootGetFile (ToString f) true); Platform (File (ToString f));
          Platform (ReadAsText (ToString f));
          Fire "file-read" (Object [("content", VString (decode data))])])).
    { subst D. unfold deliver. cbn [pending pick next_fault host faults].
      unfold complete, answer. cbv beta iota. cbn [host root entry_name].
      rewrite Hread. unfold readFile_done, assign_content, _contentChanged.
      cbn [props content with_props put_auto].
      destruct (Content_eq_dec c (CString (decode data))) as [->|Hne]; tidy;
        reflexivity. }
    clearbody D. subst D. unfold quiescent. cbn. tidy. repeat split; reflexivity.
Qed.

(** ** Mounting *)

Lemma fold_microtasks ms : forall W,
  pending (fold_left run_microtask ms W) = pending W /\
  log (fold_left run_microtask ms W) = log W /\
  host (fold_left run_microtask ms W) = host W /\
  behavior (fold_left run_microtask ms W) = behavior W /\
  fileSystem (props (fold_left run_microtask ms W)) = fileSystem (props W) /\
  grantedQuota (props (fold_left run_microtask ms W)) = grantedQuota (props W).
Proof.
  induction ms as [|[saved] ms IH]; intros W; [cbn; auto 10|].
  cbn [fold_left]. destruct (IH (run_microtask W (MRestoreAuto saved))) as (-> & -> & -> & -> & -> & ->).
  destruct W as [b [q g f a c m fs] h ts ms' lg]. cbn. auto 10.
Qed.

Lemma drain_pending W : pending (drain W) = pending W.
Proof. unfold drain. now rewrite (proj1 (fold_microtasks _ _)). Qed.

Lemma drain_log W : log (drain W) = log W.
Proof. unfold drain. now rewrite (proj1 (proj2 (fold_microtasks _ _))). Qed.

Lemma drain_fileSystem W : fileSystem (props (drain W)) = fileSystem (props W).
Proof.
  unfold drain. now rewrite (proj1 (proj2 (proj2 (proj2 (proj2 (fold_microtasks _ _)))))).
Qed.

Lemma drain_grantedQuota W : grantedQuota (props (drain W)) = grantedQuota (props W).
Proof.
  unfold drain. now rewrite (proj2 (proj2 (proj2 (proj2 (proj2 (fold_microtasks _ _)))))).
Qed.

Lemma pick_filter (f : Task -> bool) i : forall l t rest,
  pick i l = Some (t, rest) ->
  List.length (filter f l) = (if f t then 1 else 0) + List.length (filter f rest).
Proof.
  induction i as [|i IH]; intros [|x l] t rest H; cbn in H; try discriminate.
  - inversion H; subst. cbn. destruct (f t); reflexivity.
  - destruct (pick i l) as [[u r]|] eqn:P; [|discriminate]. inversion H; subst.
    pose proof (IH _ _ _ P) as E. cbn. destruct (f x), (f t); cbn in *; lia.
Qed.

Lemma pick_forallb (f : Task -> bool) i : forall l t rest,
  pick i l = Some (t, rest) -> forallb f l = f t && forallb f rest.
Proof.
  induction i as [|i IH]; intros [|x l] t rest H; cbn in H; try discriminate.
  - inversion H; subst. reflexivity.
  - destruct (pick i l) as [[u r]|] eqn:P; [|discriminate]. inversion H; subst.
    cbn. rewrite (IH _ _ _ P). destruct (f x), (f t); reflexivity.
Qed.

Ltac tidy_all :=
  unfold requestFilesystem, getUsageAndQuota, writeFile, readFile, read, write,
    list_, _listImpl, remove, assign_content, assign_filename, _contentChanged,
    _filenameChanged, readFile_done, getFile, _requestFilesystem; tidy.

Ltac split_all :=
  repeat (tidy_all;
    match goal with
    | |- context [match ?v with Some _ => _ | None => _ end] => is_var v; destruct v
    | |- context [match ?r with RUndefined => _ | RError _ _ => _ end] => is_var r; destruct r
    | |- context [if not_signed_in ?r then _ else _] => destruct (not_signed_in r)
    | |- context [if ?a && truthy ?f then _ else _] => destruct (a && truthy f)
    | |- context [if negb (truthy ?f) then _ else _] => destruct (truthy f)
    | |- context [host_getFile ?n ?d] => destruct (host_getFile n d) as [[? ?]|?]
    | |- context [host_read ?n ?d] => destruct (host_read n d)
    | |- context [host_truncate ?n ?z ?d] => destruct (host_truncate n z d)
    | |- context [host_write ?n ?z ?d] => destruct (host_write n z d)
    | |- context [host_remove ?n ?d] => destruct (host_remove n d)
    | |- context [new_Blob ?x ?y] => destruct (new_Blob x y)
    | |- context [next_page ?x ?y] => destruct (next_page x y) as [[|? ?] [? ?]]
    | |- context [Content_eq_dec ?a ?b] => destruct (Content_eq_dec a b)
    | |- context [filename_eq_dec ?a ?b] => destruct (filename_eq_dec a b)
    | |- context [match ?b with WebFilesystemBehavior => _ | SyncFilesystemBehavior => _ end] =>
        is_var b; destruct b
    | |- context [match ?k with MKReady => _ | MKGetFile _ => _ | MKList => _ | MKUsage => _ end] =>
        is_var k; destruct k
    | |- context [match ?k with FKCaller => _ | FKTruncate => _ | FKWrite => _ | FKRead => _ | FKRemove => _ end] =>
        is_var k; destruct k
    | |- context [match ?k with WTruncate => _ | WWrite => _ end] => is_var k; destruct k
    end).

Ltac count_all :=
  unfold settled_mount, mount_inv, mounts_in_flight, handle_writes, mount_requests,
    quota_writes in *;
  cbn in *; rewrite ?filter_app, ?length_app, ?forallb_app in *; cbn in *.








(** ** Every failure ends in an [error] event *)

Lemma host_truncate_inr name z d r : host_truncate name z d = inr r -> r = NotFoundError.
Proof.
  unfold host_truncate. destruct (dir_lookup name d) as [[x|]|]; intros H; now inversion H.
Qed.

Lemma host_write_inr name b d r : host_write name b d = inr r -> r = NotFoundError.
Proof.
  unfold host_write. destruct (dir_lookup name d) as [[x|]|]; intros H; now inversion H.
Qed.

Lemma host_read_inr name d r : host_read name d = inr r -> r = NotFoundError.
Proof.
  unfold host_read. destruct (dir_lookup name d) as [[x|]|]; intros H; now inversion H.
Qed.

Lemma host_remove_inr name d r : host_remove name d = inr r -> r = NotFoundError.
Proof.
  unfold host_remove. destruct (dir_lookup name d) as [[x|]|]; intros H; now inversion H.
Qed.

Ltac tidy_all_in E :=
  unfold requestFilesystem, getUsageAndQuota, writeFile, readFile, read, write,
    list_, _listImpl, remove, assign_content, assign_filename, _contentChanged,
    _filenameChanged, readFile_done, getFile, _requestFilesystem in E; tidy_in E.

Ltac split_eqn_in E :=
  tidy_all_in E;
  repeat (
    match type of E with
    | context [match nth ?k ?fl None with Some _ => _ | None => _ end] =>
        destruct (nth k fl None) eqn:?
    | context [if not_signed_in ?r then _ else _] => destruct (not_signed_in r) eqn:?
    | context [host_getFile ?n ?d] => destruct (host_getFile n d) as [[? ?]|?] eqn:?
    | context [host_read ?n ?d] => destruct (host_read n d) eqn:?
    | context [host_truncate ?n ?z ?d] => destruct (host_truncate n z d) eqn:?
    | context [host_write ?n ?z ?d] => destruct (host_write n z d) eqn:?
    | context [host_remove ?n ?d] => destruct (host_remove n d) eqn:?
    | context [new_Blob ?x ?y] => destruct (new_Blob x y) eqn:?
    | context [Content_eq_dec ?a ?b] => destruct (Content_eq_dec a b)
    end; tidy_all_in E).

Ltac settle_in E :=
  repeat (first [rewrite run_O in E | turn_at_in E | rest_in E]; split_eqn_in E).

(** The reason of a failure is one the platform reported. *)
Ltac find_reason :=
  match goal with
  | H : nth _ ?fl None = Some ?r |- reported _ ?r =>
      left; cbn; eapply nth_Some_In; exact H
  | H : host_getFile _ _ = inr ?r |- reported _ ?r =>
      right; left; exact (proj1 (host_getFile_inr _ _ _ H))
  | H : host_truncate _ _ _ = inr ?r |- reported _ ?r =>
      right; right; exact (host_truncate_inr _ _ _ _ H)
  | H : host_write _ _ _ = inr ?r |- reported _ ?r =>
      right; right; exact (host_write_inr _ _ _ _ H)
  | H : host_read _ _ = inr ?r |- reported _ ?r =>
      right; right; exact (host_read_inr _ _ _ H)
  | H : host_remove _ _ = inr ?r |- reported _ ?r =>
      right; right; exact (host_remove_inr _ _ _ H)
  end.










(** ** The granted quota *)

Lemma settled_quota_act fs0 g0 k a W :
  settled_quota fs0 g0 k W -> settled_quota fs0 g0 k (act a W).
Proof.
  intros H. unfold act.
  unfold settled_quota, mounts_in_flight.
  rewrite drain_fileSystem, drain_pending, drain_log, drain_grantedQuota.
  fold (mounts_in_flight (invoke a W)). fold (settled_quota fs0 g0 k (invoke a W)).
  destruct W as [b [q g f au ct m fs] h ts ms lg].
  destruct H as (Hfs & Hm & Hg & Hk). cbn in Hfs, Hg. subst fs g.
  destruct a; unfold invoke.
  15:{ unfold deliver. cbn [pending host].
       destruct (pick i ts) as [[t rest]|] eqn:P;
         [|unfold settled_quota, mounts_in_flight in *; cbn in *; auto].
       pose proof (pick_filter mounting _ _ _ _ P) as Pm.
       unfold mounts_in_flight in Hm. cbn in Hm. rewrite Hm in Pm.
       destruct (next_fault h) as [v [rt pg fl ub qb]].
       destruct t; cbn in Pm; try lia;
         unfold complete, answer; cbv beta iota; split_all;
         unfold settled_quota in *; count_all; repeat split; auto; lia. }
  all: split_all; unfold settled_quota in *; count_all; repeat split; auto; lia.
Qed.

(** C9, as the code has it: a mount of the persistent behaviour on an
    element without a handle first requests [quota] bytes from the platform.
    A refusal leaves [grantedQuota] as it was.  When the grant arrives the
    granted byte count is written to [grantedQuota] at once and a
    PERSISTENT filesystem of that size is requested; the handle is set when
    that request is served, and when it fails the mount is rejected with
    [grantedQuota] already written.  Once the handle is set and no mount
    request is in flight, nothing writes [grantedQuota] again. *)
Theorem persistent_mount_records_grant (w : World) (k : MountK) :
  quiescent w -> behavior w = WebFilesystemBehavior -> fileSystem (props w) = None ->
  let q := quota (props w) in
  let g := grant q in
  let requested := log w ++ [Platform (RequestQuota q)] in
  let granted :=
    requested ++ [SetGrantedQuota g; Platform (RequestFileSystem PERSISTENT g)] in
  let w0 := _requestFilesystem k w in
  let w1 := run 1 w0 in
  let w2 := run 2 w0 in
  (pending w0 = [TRequestQuota q k] /\ log w0 = requested /\ props w0 = props w) /\
  (forall r, verdict 0 w = Some r ->
     props w1 = props w /\ exists l, log w1 = requested ++ l /\ quota_writes l = 0) /\
  (verdict 0 w = None ->
     (pending w1 = [TRequestFileSystem PERSISTENT g k] /\
      props w1 = put_grantedQuota g (props w) /\ log w1 = granted) /\
     (verdict 1 w = None ->
        props w2 = put_fileSystem (LocalFileSystem PERSISTENT g)
                     (put_grantedQuota g (props w)) /\
        exists l, log w2 = granted ++ SetFileSystem (LocalFileSystem PERSISTENT g) :: l) /\
     (forall r, verdict 1 w = Some r ->
        props w2 = put_grantedQuota g (props w) /\
        exists l, log w2 = granted ++ l /\ handle_writes l = 0)) /\
  (forall W fs gq n acts,
     settled_quota fs gq n W -> settled_quota fs gq n (exec acts W)).
Proof.
  intros Hq Hb Hfs q0 g0 requested granted w0 w1 w2.
  subst w1 w2 w0 granted requested g0 q0. unfold verdict.
  destruct w as [b [q g f a c m fs] [rt pg fl ub qb] ts ms lg].
  destruct Hq as [Hp Hm]. cbn in Hp, Hm, Hb, Hfs. subst ts ms b fs.
  cbn [props quota log host faults].
  change (mkHost rt pg fl ub qb) with (mkHost rt pg (verdicts_from 0 fl) ub qb).
  unfold _requestFilesystem. cbn [props fileSystem behavior]. tidy.
  split; [auto|]. split; [|split].
  - intros r V. turn_at. rewrite V. rewrite run_O.
    destruct k as [|fk| |]; try destruct fk; tidy;
      (split; [reflexivity|]); eexists;
      (split; [rewrite <- ?app_assoc; reflexivity|]); reflexivity.
  - intros V0. split; [|split].
    + turn_at. rewrite V0. tidy. rewrite run_O. cbn. auto.
    + intros V1. turn_at. rewrite V0. tidy. turn_at. rewrite V1. rewrite run_O.
      destruct k as [|fk| |]; try destruct fk; tidy;
        (split; [reflexivity|]); eexists; rewrite <- ?app_assoc; reflexivity.
    + intros r V1. turn_at. rewrite V0. tidy. turn_at. rewrite V1. rewrite run_O.
      destruct k as [|fk| |]; try destruct fk; tidy;
        (split; [reflexivity|]); eexists;
      (split; [rewrite <- ?app_assoc; reflexivity|]); reflexivity.
  - intros W fs gq n acts. revert W.
    induction acts as [|x acts IH]; intros W H; [exact H|].
    cbn. apply IH. now apply settled_quota_act.
Qed.



(** ** The not-signed-in test *)

Lemma prefix_append (s post : string) : prefix s (String.append s post) = true.
Proof.
  induction s as [|c s IH]; cbn; [now destruct post|].
  destruct (ascii_dec c c); [exact IH | congruence].
Qed.

Lemma indexOf_from_eq (pos : Z) (needle hay : string) :
  indexOf_from pos needle hay =
  if prefix needle hay then pos
  else match hay with
       | EmptyString => (-1)%Z
       | String _ hay' => indexOf_from (pos + 1)%Z needle hay'
       end.
Proof. destruct hay; reflexivity. Qed.

Lemma indexOf_from_found (needle pre post : string) : forall pos,
  (0 <= pos)%Z ->
  (pos <= indexOf_from pos needle (String.append pre (String.append needle post)))%Z.
Proof.
  induction pre as [|c pre IH]; intros pos Hpos.
  - cbn [String.append]. rewrite indexOf_from_eq, prefix_append. lia.
  - cbn [String.append indexOf_from].
    destruct (prefix needle (String c (String.append pre (String.append needle post))));
      [lia|].
    specialize (IH (pos + 1)%Z). lia.
Qed.

Lemma prefix_split (s : string) : forall h,
  prefix s h = true -> exists post, h = String.append s post.
Proof.
  induction s as [|c s IH]; intros h H.
  - exists h. reflexivity.
  - destruct h as [|d h]; cbn in H; [discriminate|].
    destruct (ascii_dec c d) as [->|]; [|discriminate].
    destruct (IH _ H) as [post ->]. now exists post.
Qed.

Lemma indexOf_from_range (needle : string) : forall hay pos,
  (0 <= pos)%Z ->
  indexOf_from pos needle hay = (-1)%Z \/ (pos <= indexOf_from pos needle hay)%Z.
Proof.
  induction hay as [|c hay IH]; intros pos Hpos; rewrite indexOf_from_eq.
  - destruct (prefix needle ""); [right; lia | now left].
  - destruct (prefix needle (String c hay)); [right; lia|].
    destruct (IH (pos + 1)%Z) as [E|E]; [lia | now left | right; lia].
Qed.

Lemma indexOf_from_occurs (needle : string) : forall hay pos,
  (0 <= pos)%Z -> (pos <= indexOf_from pos needle hay)%Z ->
  exists pre post, hay = String.append pre (String.append needle post).
Proof.
  induction hay as [|c hay IH]; intros pos Hpos H.
  - rewrite indexOf_from_eq in H. destruct (prefix needle "") eqn:P; [|lia].
    destruct (prefix_split _ _ P) as [post E]. exists "", post. exact E.
  - rewrite indexOf_from_eq in H. destruct (prefix needle (String c hay)) eqn:P.
    + destruct (prefix_split _ _ P) as [post E]. exists "", post. exact E.
    + destruct (indexOf_from_range needle hay (pos + 1)%Z) as [R|R]; [lia|lia|].
      destruct (IH (pos + 1)%Z) as (pre & post & E); [lia|exact R|].
      exists (String c pre), post. cbn. now rewrite E.
Qed.

(** The test of lines 83 and 99 holds of the errors whose message has the
    error code somewhere after its first character, of no others: a
    message that starts with the code is not one of them, wherever else the
    code may be in it. *)
Theorem not_signed_in_iff (r : Reason) :
  not_signed_in r = true <->
  exists name pre post,
    r = RError name
          (Some (String.append pre (String.append "error code: -107" post))) /\
    prefix "error code: -107"
      (String.append pre (String.append "error code: -107" post)) = false.
Proof.
  unfold not_signed_in, indexOf. split.
  - destruct r as [|name [m|]]; try discriminate.
    intros H. apply andb_true_iff in H. destruct H as [_ H].
    apply Z.ltb_lt in H.
    destruct m as [|c m]; [cbn in H; lia|].
    rewrite indexOf_from_eq in H.
    destruct (prefix "error code: -107" (String c m)) eqn:P; [lia|].
    destruct (indexOf_from_range "error code: -107" m 1%Z) as [R|R];
      [lia | cbn in H, R; lia |].
    destruct (indexOf_from_occurs "error code: -107" m 1%Z) as (pre & post & E);
      [lia|exact R|].
    subst m. exists name, (String c pre), post. cbn [String.append]. auto.
  - intros (name & pre & post & -> & P).
    destruct pre as [|c pre].
    + change (String.append "" ?x) with x in P. now rewrite prefix_append in P.
    + cbn [String.append] in *. cbn [truthy_string andb]. rewrite indexOf_from_eq, P.
      apply Z.ltb_lt. change (0 + 1)%Z with 1%Z.
      pose proof (indexOf_from_found "error code: -107" pre post 1%Z) as F.
      cbn [String.append] in F. lia.
Qed.

(** ** The order of a listing *)

Lemma sort_insert_directory x l : isDirectory x = true -> sort_insert x l = x :: l.
Proof.
  intros Hx. destruct l as [|y l]; [reflexivity|].
  cbn. unfold Entry_toString. rewrite Hx. now destruct (isDirectory y).
Qed.

Lemma sort_insert_after_directories x ds fs :
  isDirectory x = false ->
  Forall (fun e => isDirectory e = true) ds ->
  Forall (fun e => isDirectory e = false) fs ->
  sort_insert x (ds ++ fs) = ds ++ x :: fs.
Proof.
  intros Hx Hds Hfs. induction Hds as [|d ds Hd _ IH].
  - now apply sort_insert_files.
  - cbn. unfold Entry_toString at 1 2. rewrite Hx, Hd. cbn. now rewrite IH.
Qed.

(** Without a comparator the sort puts the directories before the files
    and keeps, within each group, the order it was given. *)
Lemma sort_directories_first l :
  sort l = filter isDirectory l ++ filter (fun e => negb (isDirectory e)) l.
Proof.
  unfold sort. induction l as [|x l IH]; [reflexivity|].
  cbn [fold_right filter]. rewrite IH.
  destruct (isDirectory x) eqn:Hx; cbn [negb].
  - now apply sort_insert_directory.
  - apply sort_insert_after_directories; [assumption| |];
      apply Forall_forall; intros e He; apply filter_In in He; destruct He as [_ He];
      [exact He | now apply negb_true_iff].
Qed.

(** [list] on a platform that reports no error: the reader is created
    once, one page is requested for each page the platform has and one more,
    which comes back empty; nothing in the root changes; and the listing
    fired with [directory-read] has the directories first and the files
    after them, each in the platform's order, whatever their names and
    however the platform cut the listing into pages. *)
Theorem list_requests_and_order (w : World) :
  quiescent w -> calm w ->
  let entries := dir_entries (root (host w)) in
  let pgs := paginate (pages (host w)) entries in
  let w' := run (mount_turns w + S (List.length pgs)) (list_ w) in
  List.concat pgs = entries /\
  quiescent w' /\ host w' = host w /\
  log w' =
    log w ++ mount_log w ++
    Platform CreateReader :: repeat (Platform ReadEntries) (S (List.length pgs)) ++
    [Fire "directory-read"
       (Object [("files",
                 VEntries (filter isDirectory entries ++
                           filter (fun e => negb (isDirectory e)) entries))])].
Proof.
  intros Hq Hc entries pgs w'. subst w' pgs entries.
  rewrite (list_run w Hq Hc). cbn [log host].
  rewrite sort_directories_first.
  split; [apply paginate_concat|]. split; [split; reflexivity|]. split; reflexivity.
Qed.

(** ** A mount the platform refuses, on the sync behaviour *)

(** When [chrome.syncFileSystem.requestFileSystem] fails with [r], every
    method gives up after that one request, with the handle still unset and
    nothing changed.  [getFile], and with it [readFile], [writeFile] and
    [remove], put an [Error] with the not-signed-in message in the place of
    an [r] that passes the test, [list] puts the message itself there, and
    [requestFilesystem] and [getUsageAndQuota] always report [r] as it is,
    the one under the key [error] and the other under the key [message]. *)
Theorem sync_mount_failure (w : World) (r : Reason) :
  behavior w = SyncFilesystemBehavior -> fileSystem (props w) = None ->
  quiescent w -> verdict 0 w = Some r ->
  let sent := log w ++ [Platform SyncRequestFileSystem] in
  let r' := if not_signed_in r then Error not_signed_in_message else r in
  (forall k, let w' := run 1 (_requestFilesystem k w) in
     quiescent w' /\ props w' = props w /\ root (host w') = root (host w)) /\
  log (run 1 (requestFilesystem w)) =
    sent ++ [Fire "error" (Object [("error", VReason r)])] /\
  log (run 1 (getUsageAndQuota w)) =
    sent ++ [Fire "error" (Object [("message", VReason r)])] /\
  log (run 1 (getFile FKCaller w)) = sent ++ [Rejected r'] /\
  log (run 1 (readFile w)) = sent ++ [Fire "error" (Value (VReason r'))] /\
  log (run 1 (writeFile w)) = sent ++ [Fire "error" (Value (VReason r'))] /\
  (truthy (filename (props w)) = true ->
   log (run 1 (remove w)) = sent ++ [Fire "error" (Value (VReason r'))]) /\
  log (run 1 (list_ w)) =
    sent ++ [Fire "error" (if not_signed_in r
                           then Value (VString not_signed_in_message)
                           else Value (VReason r))].
Proof.
  intros Hb Hfs Hq V sent r'. subst sent r'. unfold verdict in V.
  destruct w as [b [q g f a c m fs] [rt pg fl ub qb] ts ms lg].
  destruct Hq as [Hp Hm]. cbn in Hb, Hfs, Hp, Hm, V. subst b fs ts ms.
  change (mkHost rt pg fl ub qb) with (mkHost rt pg (verdicts_from 0 fl) ub qb).
  cbn [log props filename].
  repeat split.
  1-4: destruct k as [|[]| |]; unfold _requestFilesystem; tidy; turn_at; rewrite V;
       destruct (not_signed_in r); tidy; rewrite run_O; reflexivity.
  all: try (intros T; unfold remove; cbn [props filename]; rewrite T; cbn [negb]).
  all: tidy_all; turn_at; rewrite V; destruct (not_signed_in r); tidy;
       rewrite run_O; reflexivity.
Qed.

(** ** The usage queries *)

(** [getUsageAndQuota] of the web behaviour asks the platform at once,
    without mounting and whatever the handle: the answer is fired as
    [filesystem-usage] with the two byte counts, and an error of the
    platform is fired as [error] with the message of the error under the
    key [messager].  No property of the element changes. *)
Theorem web_usage_query (w : World) :
  behavior w = WebFilesystemBehavior -> quiescent w ->
  let w0 := getUsageAndQuota w in
  let w1 := run 1 w0 in
  pending w0 = [TQueryUsageAndQuota] /\
  log w0 = log w ++ [Platform QueryUsageAndQuota] /\
  quiescent w1 /\ props w1 = props w /\
  (verdict 0 w = None ->
   log w1 = log w0 ++
     [Fire "filesystem-usage"
        (Object [("usageBytes", VNumber (usageBytes (host w)));
                 ("quotaBytes", VNumber (quotaBytes (host w)))])]) /\
  (forall name message, verdict 0 w = Some (RError name message) ->
   log w1 = log w0 ++ [Fire "error" (Object [("messager", message_of message)])]).
Proof.
  intros Hb Hq w0 w1. subst w1 w0. unfold verdict.
  destruct w as [b [q g f a c m fs] [rt pg fl ub qb] ts ms lg].
  destruct Hq as [Hp Hm]. cbn in Hb, Hp, Hm. subst b ts ms.
  cbn [host faults usageBytes quotaBytes].
  change (mkHost rt pg fl ub qb) with (mkHost rt pg (verdicts_from 0 fl) ub qb).
  unfold getUsageAndQuota. cbn [behavior log props].
  tidy. split; [reflexivity|]. split; [reflexivity|].
  turn_at. rewrite run_O.
  destruct (nth 0 fl None) as [[|name message]|] eqn:V; tidy;
    (split; [split; reflexivity|]); (split; [reflexivity|]);
    (split; [intros E | intros n' m' E]); try discriminate; try reflexivity.
  inversion E. now rewrite <- app_assoc.
Qed.

(** [getUsageAndQuota] of the sync behaviour mounts the filesystem first,
    as any file operation does, and keeps the handle; it then asks for the
    usage of that handle and fires [filesystem-usage] with the two byte
    counts. *)
Theorem sync_usage_query (w : World) :
  behavior w = SyncFilesystemBehavior -> quiescent w ->
  (forall i, i < mount_turns w + 1 -> verdict i w = None) ->
  let w' := run (mount_turns w + 1) (getUsageAndQuota w) in
  quiescent w' /\ props w' = mounted w /\ fileSystem (props w') <> None /\
  log w' = log w ++ mount_log w ++
    [Platform SyncGetUsageAndQuota;
     Fire "filesystem-usage"
       (Object [("usageBytes", VNumber (usageBytes (host w)));
                ("quotaBytes", VNumber (quotaBytes (host w)))])].
Proof.
  intros Hb Hq V w'. subst w'. unfold verdict in V.
  destruct w as [b [q g f a c m fs] [rt pg fl ub qb] ts ms lg].
  destruct Hq as [Hp Hm]. cbn in Hb, Hp, Hm, V. subst b ts ms.
  change (mkHost rt pg fl ub qb) with (mkHost rt pg (verdicts_from 0 fl) ub qb).
  unfold getUsageAndQuota, mount_turns, mount_log, mounted.
  cbn [behavior log host faults props fileSystem usageBytes quotaBytes].
  destruct fs as [fs|]; cbn [mount_turns props fileSystem behavior] in V |- *.
  - pose proof (V 0 ltac:(lia)) as V0.
    tidy_all. turn_at. rewrite V0. tidy. rewrite run_O. cbn.
    repeat split; discriminate.
  - pose proof (V 0 ltac:(lia)) as V0. pose proof (V 1 ltac:(lia)) as V1.
    tidy_all. turn_at. rewrite V0. tidy. turn_at. rewrite V1. tidy. rewrite run_O. cbn.
    repeat split; discriminate.
Qed.

(** ** Mirror mode: what an assignment starts *)

Lemma mount_facts_put_filename v w :
  mount_turns (with_props (put_filename v) w) = mount_turns w /\
  mount_log (with_props (put_filename v) w) = mount_log w /\
  mounted (with_props (put_filename v) w) = put_filename v (mounted w).
Proof.
  destruct w as [b [q g f a c m [fs|]] h ts ms lg]; [|destruct b]; cbn; auto.
Qed.

Lemma mount_facts_put_content v w :
  mount_turns (with_props (put_content v) w) = mount_turns w /\
  mount_log (with_props (put_content v) w) = mount_log w /\
  mounted (with_props (put_content v) w) = put_content v (mounted w).
Proof.
  destruct w as [b [q g f a c m [fs|]] h ts ms lg]; [|destruct b]; cbn; auto.
Qed.

Lemma mount_turns_le w : mount_turns w <= 2.
Proof.
  unfold mount_turns. destruct (fileSystem (props w)); [|destruct (behavior w)]; lia.
Qed.

(** Assigning the name of a file to [filename].  In mirror mode, when the
    name is not the one [filename] holds already, the file is read: its text
    is in [content] and in the [file-read] event, nothing is written and
    [auto] is as it was.  With mirror mode off, or when the name is
    assigned again, the assignment sends nothing to the platform. *)
Theorem mirror_filename_reads (w : World) (name : string) (data : list byte) :
  quiescent w -> calm w -> truthy_string name = true ->
  host_read name (root (host w)) = inl data ->
  let w' := run 5 (act (Assign_filename (Some name)) w) in
  quiescent w' /\ filename (props w') = Some name /\ host w' = host w /\
  auto (props w') = auto (props w) /\
  (auto (props w) = true -> filename (props w) <> Some name ->
     content (props w') = CString (decode data) /\
     log w' = log w ++ mount_log w ++
       [Platform (RootGetFile name true); Platform (File name);
        Platform (ReadAsText name);
        Fire "file-read" (Object [("content", VString (decode data))])]) /\
  (auto (props w) = false \/ filename (props w) = Some name ->
     content (props w') = content (props w) /\
     fileSystem (props w') = fileSystem (props w) /\ log w' = log w).
Proof.
  intros Hq Hc Hname Hread w'. subst w'.
  unfold act, invoke, assign_filename.
  destruct (filename_eq_dec (filename (props w)) (Some name)) as [E|E].
  { rewrite drain_idle by apply Hq. rewrite run_quiescent by assumption.
    split; [assumption|]. repeat (split; [solve [auto]|]).
    split; [intros; congruence | intros _; auto]. }
  set (v := with_props (put_filename (Some name)) w).
  assert (Hv : quiescent v /\ calm v /\ filename (props v) = Some name /\
               auto (props v) = auto (props w) /\ host v = host w /\
               content (props v) = content (props w) /\
               fileSystem (props v) = fileSystem (props w) /\ log v = log w).
  { subst v. destruct w as [b [q g f a c m fs] h ts ms lg]. cbn in *.
    unfold quiescent, calm in *. cbn in *. repeat split; auto; apply Hq. }
  destruct Hv as (Hqv & Hcv & Hfv & Hav & Hhv & Hcn & Hfsv & Hlv).
  unfold _filenameChanged. rewrite Hfv, Hav. cbn [truthy]. rewrite Hname, andb_true_r.
  destruct (auto (props w)) eqn:A.
  - assert (Hread' : host_read (ToString (filename (props v))) (root (host v)) = inl data).
    { now rewrite Hfv, Hhv. }
    pose proof (readFile_run v data Hqv Hcv Hread') as Hrun. cbv zeta in Hrun.
    unfold readFile, getFile in *. rewrite act_requestFilesystem by apply Hqv.
    rewrite (run_rest (mount_turns v + 3) 5)
      by first [rewrite Hrun; split; reflexivity | pose proof (mount_turns_le v); lia].
    rewrite Hrun.
    destruct (mount_facts_put_filename (Some name) w) as (_ & Hml & Hmd).
    fold v in Hml, Hmd. rewrite Hml, Hmd, Hfv, Hhv, Hlv.
    destruct (mounted_shape w) as (g' & fs' & Hm & _). rewrite Hm. cbn.
    split; [split; reflexivity|]. repeat (split; [solve [auto]|]).
    intros [?|?]; congruence.
  - rewrite drain_idle by apply Hqv. rewrite run_quiescent by assumption.
    split; [assumption|]. repeat (split; [solve [auto]|]).
    split; [intros; congruence | intros _; auto].
Qed.

(** Assigning a string to [content] when [filename] names a file.  In
    mirror mode, when the string is not the one [content] holds already,
    the file is written: it ends up holding the bytes of the string, and
    [file-write] is fired.  With mirror mode off, or when the same string
    is assigned again, the assignment sends nothing to the platform. *)
Theorem mirror_content_writes (w : World) (name s : string) :
  quiescent w -> calm w ->
  filename (props w) = Some name -> truthy_string name = true ->
  dir_lookup name (root (host w)) <> Some NDirectory ->
  let w' := run 8 (act (Assign_content (CString s)) w) in
  quiescent w' /\ content (props w') = CString s /\
  auto (props w') = auto (props w) /\
  (auto (props w) = true -> content (props w) <> CString s ->
     host_read name (root (host w')) = inl (encode s) /\
     log w' = log w ++ mount_log w ++
       [Platform (RootGetFile name true); Platform (CreateWriter name);
        Platform (Truncate name 0);
        Platform (RootGetFile name true); Platform (CreateWriter name);
        Platform (Write name (mkBlob (encode s) (mime (props w))));
        Fire "file-write" (Value VUndefined)]) /\
  (auto (props w) = false \/ content (props w) = CString s ->
     host w' = host w /\ fileSystem (props w') = fileSystem (props w) /\
     log w' = log w).
Proof.
  intros Hq Hc Hf Hname Hdir w'. subst w'.
  unfold act, invoke, assign_content.
  destruct (Content_eq_dec (content (props w)) (CString s)) as [E|E].
  { rewrite drain_idle by apply Hq. rewrite run_quiescent by assumption.
    split; [assumption|]. repeat (split; [solve [auto]|]).
    split; [intros; congruence | intros _; auto]. }
  set (v := with_props (put_content (CString s)) w).
  assert (Hv : quiescent v /\ calm v /\ filename (props v) = Some name /\
               auto (props v) = auto (props w) /\ host v = host w /\
               content (props v) = CString s /\ mime (props v) = mime (props w) /\
               fileSystem (props v) = fileSystem (props w) /\ log v = log w).
  { subst v. destruct w as [b [q g f a c m fs] h ts ms lg]. cbn in *.
    unfold quiescent, calm in *. cbn in *. repeat split; auto; apply Hq. }
  destruct Hv as (Hqv & Hcv & Hfv & Hav & Hhv & Hcn & Hmv & Hfsv & Hlv).
  unfold _contentChanged. rewrite Hfv, Hav. cbn [truthy]. rewrite Hname, andb_true_r.
  destruct (auto (props w)) eqn:A.
  - assert (Hblob : new_Blob (toWrite (content (props v))) (mime (props v))
                    = Some (mkBlob (encode s) (mime (props w)))).
    { rewrite Hcn, Hmv. unfold new_Blob. cbn. now rewrite app_nil_r. }
    assert (Hdir' : dir_lookup (ToString (filename (props v))) (root (host v))
                    <> Some NDirectory).
    { now rewrite Hfv, Hhv. }
    destruct (host_getFile_total _ _ Hdir') as [d Hget].
    destruct (host_getFile_inl _ _ _ _ Hget) as [_ [data L]].
    pose proof (writeFile_run v _ _ d Hqv Hcv Hblob Hget) as Hrun. cbv zeta in Hrun.
    unfold writeFile, getFile in *. rewrite act_requestFilesystem by apply Hqv.
    rewrite (run_rest (mount_turns v + 6) 8)
      by first [rewrite Hrun; split; reflexivity | pose proof (mount_turns_le v); lia].
    rewrite Hrun.
    destruct (mount_facts_put_content (CString s) w) as (_ & Hml & Hmd).
    fold v in Hml, Hmd. rewrite Hml, Hmd, Hfv, Hlv.
    rewrite Hfv in L. cbn [ToString] in L |- *.
    destruct (mounted_shape w) as (g' & fs' & Hm & _). rewrite Hm. cbn.
    split; [split; reflexivity|]. repeat (split; [solve [auto]|]).
    split; [intros _ _; split; [|reflexivity] | intros [?|?]; congruence].
    apply host_read_file, dir_lookup_update. congruence.
  - rewrite drain_idle by apply Hqv. rewrite run_quiescent by assumption.
    split; [assumption|]. repeat (split; [solve [auto]|]).
    split; [intros; congruence | intros _; auto].
Qed.

(** ** Reading a file that is not there *)

(** [readFile] opens the file with [{create: true}]: when nothing in the
    root has the name, the file is created empty at the end of the listing,
    and the read succeeds with the text of an empty file.  No error is
    reported for the missing file. *)
Theorem readFile_creates_missing_file (w : World) (name : string) :
  quiescent w -> calm w ->
  filename (props w) = Some name ->
  dir_lookup name (root (host w)) = None ->
  let w' := run (mount_turns w + 3) (readFile w) in
  quiescent w' /\
  root (host w') = root (host w) ++ [(name, NFile [])] /\
  content (props w') = CString (decode []) /\
  log w' = log w ++ mount_log w ++
    [Platform (RootGetFile name true); Platform (File name);
     Platform (ReadAsText name);
     Fire "file-read" (Object [("content", VString (decode []))])].
Proof.
  intros Hq Hc Hf Hmiss w'. subst w'. unfold readFile, getFile.
  rewrite after_mount by assumption.
  destruct (mounted_shape w) as (g' & fs' & -> & _).
  open_world w. destruct Hq as [-> ->]. subst fl f. cbn [ToString].
  assert (Hget : host_getFile name rt = inl (mkEntry name false, rt ++ [(name, NFile [])])).
  { unfold host_getFile. now rewrite Hmiss. }
  assert (Hread : host_read name (rt ++ [(name, NFile [])]) = inl []).
  { apply host_read_file. now apply dir_lookup_new. }
  tidy. turn. rewrite Hget. tidy. turn. rewrite Hread. tidy.
  turn. rewrite Hread. unfold readFile_done, assign_content. tidy.
  destruct (Content_eq_dec c (CString (decode []))) as [->|Hne];
    unfold _contentChanged; tidy; rewrite run_O; cbn; repeat split.
Qed.

(** ** Writing a content that is not a string *)

(** [_writeFileEntry] wraps a string in an array and hands anything else to
    [new Blob] as it is.  An [ArrayBuffer] or a [Blob] is not a sequence, so
    the constructor throws inside the callback of [createWriter], after the
    file has been truncated: the file is left empty, and neither
    [file-write] nor [error] is fired. *)
Theorem writeFile_loses_binary_content (w : World) (name : string) (data : list byte) :
  quiescent w -> calm w ->
  filename (props w) = Some name ->
  content (props w) = CBinary data ->
  dir_lookup name (root (host w)) <> Some NDirectory ->
  forall n, mount_turns w + 5 <= n ->
  let w' := run n (writeFile w) in
  quiescent w' /\
  host_read name (root (host w')) = inl [] /\
  log w' = log w ++ mount_log w ++
    [Platform (RootGetFile name true); Platform (CreateWriter name);
     Platform (Truncate name 0);
     Platform (RootGetFile name true); Platform (CreateWriter name);
     Uncaught].
Proof.
  intros Hq Hc Hf Hct Hdir n Hn w'. subst w'.
  assert (Hrun :
    let W := run (mount_turns w + 5) (writeFile w) in
    quiescent W /\ host_read name (root (host W)) = inl [] /\
    log W = log w ++ mount_log w ++
      [Platform (RootGetFile name true); Platform (CreateWriter name);
       Platform (Truncate name 0);
       Platform (RootGetFile name true); Platform (CreateWriter name);
       Uncaught]).
  { unfold writeFile, getFile. rewrite after_mount by assumption.
    destruct (mounted_shape w) as (g' & fs' & -> & _).
    destruct w as [b [q g f a c m fs] [rt pg fl ub qb] ts ms lg].
    unfold quiescent, calm in Hq, Hc. cbn in Hq, Hc, Hf, Hct, Hdir.
    destruct Hq as [-> ->]. subst fl f c.
    cbn [behavior props host log quota filename auto content mime ToString].
    destruct (host_getFile_total _ _ Hdir) as [d Hget].
    destruct (host_getFile_inl _ _ _ _ Hget) as [_ [old L]].
    pose proof (host_truncate_zero _ _ _ L) as Ht.
    assert (L' : dir_lookup name (dir_update name (NFile []) d) = Some (NFile [])).
    { apply dir_lookup_update. congruence. }
    pose proof (host_getFile_existing _ _ _ L') as Hg'.
    tidy. turn. rewrite Hget. tidy. turn. tidy. turn. rewrite Ht. tidy.
    unfold getFile, _requestFilesystem. tidy.
    turn. rewrite Hg'. tidy. turn. unfold new_Blob. tidy.
    rewrite run_O. cbn. repeat split. now apply host_read_file. }
  cbv zeta in Hrun. destruct Hrun as (Hq' & Hr & Hl).
  rewrite (run_rest (mount_turns w + 5) n) by assumption. auto.
Qed.

(** ** A write that fails half way *)

Ltac use_verdicts :=
  repeat match goal with
         | H : nth ?k ?fl None = _ |- context [nth ?k ?fl None] => rewrite H
         end.

Ltac use_host :=
  repeat match goal with
         | H : host_getFile ?n ?d = _ |- context [host_getFile ?n ?d] => rewrite H
         | H : host_truncate ?n ?z ?d = _ |- context [host_truncate ?n ?z ?d] => rewrite H
         | H : host_write ?n ?b ?d = _ |- context [host_write ?n ?b ?d] => rewrite H
         | H : host_read ?n ?d = _ |- context [host_read ?n ?d] => rewrite H
         | H : host_remove ?n ?d = _ |- context [host_remove ?n ?d] => rewrite H
         | H : new_Blob ?p ?t = _ |- context [new_Blob ?p ?t] => rewrite H
         end.

(** Turns of the event loop, with the verdicts and the answers of the
    root that are known. *)
Ltac turns :=
  repeat first
    [ rewrite run_O
    | rewrite run_quiescent by (split; reflexivity)
    | turn_at; use_verdicts; use_host; tidy_all ].

(** [writeFile] on an element that has its handle, when the platform fails
    one of the six requests of the write and serves those before it: the
    run ends with one [error] event that carries the reason, and without
    [file-write].  The file keeps its bytes when the failure comes no later
    than the truncation, and is left empty when it comes after: the write
    does not put back what the truncation took. *)
Theorem writeFile_failure_leaves_file (w : World) (name : string) (data : list byte)
    (j : nat) (r : Reason) :
  quiescent w -> fileSystem (props w) <> None ->
  filename (props w) = Some name ->
  dir_lookup name (root (host w)) = Some (NFile data) ->
  new_Blob (toWrite (content (props w))) (mime (props w)) <> None ->
  j < 6 -> (forall i, i < j -> verdict i w = None) -> verdict j w = Some r ->
  let w' := run 6 (writeFile w) in
  quiescent w' /\
  (exists l, log w' = log w ++ l /\
             outcomes l = [Fire "error" (Value (VReason r))]) /\
  host_read name (root (host w')) = inl (if Nat.ltb j 3 then data else []).
Proof.
  intros Hq Hfs Hf L Hblob Hj Hserved Hfail w'. subst w'. unfold verdict in *.
  destruct w as [b [q g f a c m fs] [rt pg fl ub qb] ts ms lg].
  destruct Hq as [Hp Hm]. cbn in Hfs, Hf, L, Hblob, Hp, Hm, Hserved, Hfail.
  subst ts ms f. destruct fs as [fs|]; [clear Hfs | congruence].
  destruct (new_Blob (toWrite c) m) as [blob|] eqn:Hb; [clear Hblob | congruence].
  pose proof (host_getFile_existing _ _ _ L) as Hget.
  pose proof (host_truncate_zero _ _ _ L) as Ht.
  assert (L' : dir_lookup name (dir_update name (NFile []) rt) = Some (NFile [])).
  { apply dir_lookup_update. congruence. }
  pose proof (host_getFile_existing _ _ _ L') as Hg'.
  pose proof (host_read_file _ _ _ L) as Hr.
  pose proof (host_read_file _ _ _ L') as Hr'.
  change (mkHost rt pg fl ub qb) with (mkHost rt pg (verdicts_from 0 fl) ub qb).
  cbn [log props filename ToString].
  do 6 (destruct j as [|j];
        [ repeat match goal with
                 | H : forall i, i < ?n -> _ |- _ =>
                     match n with
                     | S ?n' => pose proof (H n' ltac:(lia));
                                assert (forall i, i < n' -> nth i fl None = None)
                                  by (intros; apply H; lia);
                                clear H
                     | O => clear H
                     end
                 end;
          tidy_all; turns; cbn;
          (split; [split; reflexivity|]);
          (split; [eexists; split; [reflexivity|reflexivity] | assumption])
        | ]).
  lia.
Qed.

(** ** The promise of [getFile] *)

Lemma host_getFile_root name rt e d :
  host_getFile name rt = inl (e, d) ->
  e = mkEntry name false /\
  d = match dir_lookup name rt with
      | None => rt ++ [(name, NFile [])]
      | Some _ => rt
      end.
Proof.
  unfold host_getFile.
  destruct (dir_lookup name rt) as [[data|]|]; intros H; inversion H; auto.
Qed.

Ltac getFile_outcome :=
  first
    [ match goal with
      | H : host_getFile _ _ = inl _ |- _ =>
          destruct (host_getFile_root _ _ _ _ H) as [? ?]; subst
      end;
      left; split; [reflexivity|]; split; [served | reflexivity]
    | right; eexists; split; [reflexivity|]; split; [reflexivity|];
      left; find_reason
    | right; eexists; split; [reflexivity|]; split; [reflexivity|];
      right; split; [reflexivity|]; eexists;
      split; [eapply nth_Some_In; eassumption|]; split; [assumption|reflexivity] ].

(** The promise [getFile] returns to its caller is settled once, and no
    event is fired.  It resolves, when the platform serves the mount and
    the request for the file, with the entry of that name, the file having
    been created empty at the end of the root when it was not there.  It is
    rejected otherwise, nothing having changed in the root, with the reason
    the platform gave or, on the sync behaviour, with the not-signed-in
    error in the place of a mount failure that passes the test. *)
Theorem getFile_settles_once (w : World) (name : string) :
  quiescent w -> filename (props w) = Some name ->
  let w' := run 3 (act Call_getFile w) in
  quiescent w' /\
  exists l, log w' = log w ++ l /\
    ((outcomes l = [Resolved (mkEntry name false)] /\
      (forall i, i < mount_turns w + 1 -> verdict i w = None) /\
      root (host w') = match dir_lookup name (root (host w)) with
                       | None => root (host w) ++ [(name, NFile [])]
                       | Some _ => root (host w)
                       end)
     \/
     (exists r, outcomes l = [Rejected r] /\ root (host w') = root (host w) /\
        (reported w r \/
         (behavior w = SyncFilesystemBehavior /\
          exists r0, In (Some r0) (faults (host w)) /\ not_signed_in r0 = true /\
                     r = Error not_signed_in_message)))).
Proof.
  intros Hq Hf w'. remember w' as X eqn:E. subst w'.
  unfold mount_turns, verdict.
  open_world w. destruct Hq as [-> ->]. subst f.
  change fl with (verdicts_from 0 fl) in E.
  unfold act, invoke in E.
  destruct fs as [fs|]; try destruct b; split_eqn_in E; settle_in E;
    subst X; unfold quiescent; cbn;
    (split; [split; reflexivity|]); eexists; (split; [reflexivity|]);
    getFile_outcome.
Qed.

(** ** The content a write takes *)

Ltac turn_in E :=
  rewrite run_S, act_first in E; unfold complete, answer in E;
  cbv beta iota in E; cbn in E.

(** [writeFile] reads [content] and [mime] when the second writer is
    handed over, not when it is called: a string assigned to [content]
    while the write is under way, before that, is the one the file ends up
    holding.  The element has its handle and mirror mode is off; [k] is how
    many requests of the write the platform had served when the string was
    assigned. *)
Theorem writeFile_writes_latest_content (w : World) (name s : string) (k : nat) :
  quiescent w -> calm w -> fileSystem (props w) <> None ->
  auto (props w) = false -> filename (props w) = Some name ->
  dir_lookup name (root (host w)) <> Some NDirectory ->
  k <= 4 ->
  let w1 := run k (act Call_writeFile w) in
  let w2 := run 6 (act (Assign_content (CString s)) w1) in
  quiescent w2 /\
  host_read name (root (host w2)) = inl (encode s) /\
  exists before,
    log w2 = before ++ [Platform (Write name (mkBlob (encode s) (mime (props w))));
                        Fire "file-write" (Value VUndefined)].
Proof.
  intros Hq Hc Hfs Ha Hf Hdir Hk w1 w2. subst w2 w1.
  destruct w as [b [q g f a c m fs] [rt pg fl ub qb] ts ms lg].
  unfold quiescent, calm in Hq, Hc. cbn in Hq, Hc, Hfs, Ha, Hf, Hdir.
  destruct Hq as [-> ->]. subst fl a f. cbn [props mime].
  destruct fs as [fs|]; [clear Hfs | congruence].
  destruct (host_getFile_total _ _ Hdir) as [d Hget].
  destruct (host_getFile_inl _ _ _ _ Hget) as [_ [old L]].
  pose proof (host_truncate_zero _ _ _ L) as Ht.
  assert (L' : dir_lookup name (dir_update name (NFile []) d) = Some (NFile [])).
  { apply dir_lookup_update. congruence. }
  pose proof (host_getFile_existing _ _ _ L') as Hg'.
  assert (Hw : forall b, host_write name b (dir_update name (NFile []) d)
                         = inl (dir_update name (NFile (blob_bytes b)) d)).
  { intros b0. rewrite (host_write_empty _ b0 _ L'). now rewrite dir_update_update. }
  assert (Lw : host_read name (dir_update name (NFile (encode s)) d) = inl (encode s)).
  { apply host_read_file, dir_lookup_update. congruence. }
  assert (Hblob : new_Blob (ArrayOf [s]) m = Some (mkBlob (encode s) m)).
  { unfold new_Blob. cbn. now rewrite app_nil_r. }
  do 5 (destruct k as [|k];
        [ match goal with
          | |- context [run ?n (act Call_writeFile ?W)] =>
              remember (run n (act Call_writeFile W)) as W1 eqn:E1
          end;
          unfold act, invoke in E1; tidy_all_in E1;
          repeat (turn_in E1; rewrite ?Hget, ?Ht, ?Hg', ?Hw in E1; tidy_all_in E1);
          rewrite ?run_O in E1; subst W1;
          match goal with
          | |- context [run 6 ?W] => remember (run 6 W) as X eqn:E
          end;
          unfold act, invoke, assign_content in E; cbn [props content] in E;
          destruct (Content_eq_dec c (CString s)) as [->|Hne];
          tidy_all_in E;
          repeat (first [rewrite run_O in E | rest_in E
                        | turn_in E; rewrite ?Hget, ?Ht, ?Hg', ?Hblob, ?Hw in E;
                          tidy_all_in E]);
          subst X; cbn; (split; [split; reflexivity|]); (split; [assumption|]);
          exists (lg ++ [Platform (RootGetFile name true); Platform (CreateWriter name);
                         Platform (Truncate name 0);
                         Platform (RootGetFile name true);
                         Platform (CreateWriter name)]);
          rewrite <- app_assoc; reflexivity
        | ]).
  lia.
Qed.

(** ** What holds of every run *)

Lemma drain_microtasks W : microtasks (drain W) = [].
Proof.
  unfold drain.
  assert (H : forall ms V, microtasks V = [] ->
                microtasks (fold_left run_microtask ms V) = []).
  { induction ms as [|[saved] ms IH]; intros V HV; [exact HV|].
    cbn [fold_left]. apply IH. destruct V as [b p h ts ms' lg]. exact HV. }
  now apply H.
Qed.

Lemma act_configuration_drain W :
  quota (props (drain W)) = quota (props W) /\
  filename (props (drain W)) = filename (props W) /\
  mime (props (drain W)) = mime (props W) /\
  content (props (drain W)) = content (props W).
Proof.
  unfold drain.
  assert (H : forall ms V,
            quota (props (fold_left run_microtask ms V)) = quota (props V) /\
            filename (props (fold_left run_microtask ms V)) = filename (props V) /\
            mime (props (fold_left run_microtask ms V)) = mime (props V) /\
            content (props (fold_left run_microtask ms V)) = content (props V)).
  { induction ms as [|[saved] ms IH]; intros V; [auto|].
    cbn [fold_left]. destruct (IH (run_microtask V (MRestoreAuto saved))) as (-> & -> & -> & ->).
    destruct V as [b [q g f a c m fs] h ts ms' lg]. cbn. auto. }
  destruct (H (microtasks W)
              (mkWorld (behavior W) (props W) (host W) (pending W) [] (log W)))
    as (-> & -> & -> & ->).
  cbn. auto.
Qed.

Lemma act_microtasks a W : microtasks (act a W) = [].
Proof. apply drain_microtasks. Qed.

Lemma exec_microtasks acts : forall W, microtasks W = [] -> microtasks (exec acts W) = [].
Proof.
  induction acts as [|a acts IH]; intros W H; [exact H|].
  cbn. apply IH, act_microtasks.
Qed.

Lemma act_configuration (a : Action) (w : World) :
  microtasks w = [] ->
  same_configuration (props (act a w)) (configure (props w) a) /\
  behavior (act a w) = behavior w.
Proof.
  intros Hm. destruct w as [b [q g f au ct m fs] h ts ms lg]. cbn in Hm. subst ms.
  unfold act, same_configuration.
  destruct a; unfold invoke, configure.
  15:{ unfold deliver. cbn [pending host].
       destruct (pick i ts) as [[t rest]|]; [|cbn; auto].
       destruct (next_fault h) as [v [rt pg fl ub qb]].
       destruct t; unfold complete, answer; cbv beta iota; split_all; cbn; auto. }
  all: unfold read, write; split_all; cbn; auto.
Qed.


(** [content] changes in two ways only: the page assigns it, or a read
    delivers the text of the file.  In the second case the new content is
    that text, and [file-read] with the same text is what the turn adds to
    the log: a failed read, and every other method, leave [content] as it
    was. *)
Theorem content_changes_with_file_read (a : Action) (w : World) :
  microtasks w = [] ->
  (forall c, a <> Assign_content c) ->
  content (props (act a w)) <> content (props w) ->
  exists s,
    content (props (act a w)) = CString s /\
    log (act a w) = log w ++ [Fire "file-read" (Object [("content", VString s)])].
Proof.
  intros Hm Ha. destruct w as [b [q g f au ct m fs] h ts ms lg]. cbn in Hm. subst ms.
  unfold act.
  destruct a; unfold invoke; try (exfalso; eapply Ha; reflexivity).
  14:{ unfold deliver. cbn [pending host].
       destruct (pick i ts) as [[t rest]|]; [|cbn; congruence].
       destruct (next_fault h) as [v [rt pg fl ub qb]].
       destruct t; unfold complete, answer; cbv beta iota; split_all; cbn;
         intros H; first [congruence | eexists; split; reflexivity]. }
  all: unfold read, write; split_all; cbn; intros H; congruence.
Qed.

(** ** Each behaviour keeps to its own platform interface *)

Ltac own_all :=
  unfold own_backend in *; cbn in *;
  rewrite ?forallb_app, ?andb_true_r in *; cbn in *;
  repeat match goal with
         | H : _ /\ _ |- _ => destruct H
         | H : _ && _ = true |- _ => apply andb_true_iff in H
         end;
  repeat split; auto;
  try (intros; discriminate);
  try (apply andb_true_iff; split; auto).

Lemma own_backend_act a W : own_backend W -> own_backend (act a W).
Proof.
  intros H. unfold act, own_backend.
  rewrite drain_pending, drain_log, drain_grantedQuota.
  assert (Hb : behavior (drain (invoke a W)) = behavior (invoke a W)).
  { unfold drain. now rewrite (proj1 (proj2 (proj2 (proj2 (fold_microtasks _ _))))). }
  rewrite Hb. clear Hb. fold (own_backend (invoke a W)).
  destruct W as [b [q g f au ct m fs] h ts ms lg].
  destruct a; unfold invoke.
  15:{ unfold deliver. cbn [pending host].
       destruct (pick i ts) as [[t rest]|] eqn:P; [|exact H].
       destruct H as (Hp & Hl & Hg). cbn [pending behavior log props] in Hp, Hl, Hg.
       rewrite (pick_forallb _ _ _ _ _ P) in Hp.
       apply andb_true_iff in Hp. destruct Hp as [Ht Hp].
       destruct (next_fault h) as [v [rt pg fl ub qb]].
       destruct b, t; try discriminate Ht;
         try match goal with k : MountK |- _ => destruct k; try discriminate Ht end;
         unfold complete, answer; cbv beta iota; split_all; own_all. }
  all: unfold read, write; destruct b; split_all; own_all.
Qed.

Lemma exec_behavior acts : forall W,
  microtasks W = [] -> behavior (exec acts W) = behavior W.
Proof.
  induction acts as [|a acts IH]; intros W H; [reflexivity|].
  cbn. rewrite IH by apply act_microtasks.
  now destruct (act_configuration a W H).
Qed.

(** In no run does the web behaviour call [chrome.syncFileSystem], and in
    no run does the sync behaviour ask for quota, request a filesystem from
    [window] or query the usage of the persistent storage: it never writes
    [grantedQuota], which stays at 0. *)
Theorem backends_do_not_mix (b : Behavior) (h : Host) (acts : list Action) :
  let w := exec acts (element b h) in
  behavior w = b /\
  (forall c, In (Platform c) (log w) -> foreign b c = false) /\
  (b = SyncFilesystemBehavior -> quota_writes (log w) = 0 /\ grantedQuota (props w) = 0%Z).
Proof.
  intros w.
  assert (Hb : behavior w = b).
  { subst w. now rewrite exec_behavior. }
  assert (H : own_backend w).
  { subst w. clear Hb.
    assert (HW : own_backend (element b h)) by (cbn; repeat split; auto).
    revert HW. generalize (element b h).
    induction acts as [|a acts IH]; intros W HW; [exact HW|].
    cbn. apply IH. now apply own_backend_act. }
  destruct H as (_ & Hl & Hg). rewrite Hb in Hl, Hg.
  split; [exact Hb|]. split.
  - intros c Hc. rewrite forallb_forall in Hl. specialize (Hl _ Hc). cbn in Hl.
    now apply negb_true_iff.
  - intros ->. split; [|now apply Hg].
    unfold quota_writes. induction (log w) as [|o l IH]; [reflexivity|].
    cbn in Hl. apply andb_true_iff in Hl. destruct Hl as [Ho Hl].
    destruct o; cbn in Ho |- *; try discriminate; auto.
Qed.

(** ** Reading keeps the files *)

Lemma dir_lookup_app name x d l :
  dir_lookup name d = Some x -> dir_lookup name (d ++ l) = Some x.
Proof.
  unfold dir_lookup. induction d as [|[n y] d IH]; cbn; [discriminate|].
  destruct (String.eqb n name); auto.
Qed.

Lemma host_getFile_keeps name x n rt e d :
  host_getFile n rt = inl (e, d) ->
  dir_lookup name rt = Some x -> dir_lookup name d = Some x.
Proof.
  intros G L. destruct (host_getFile_root _ _ _ _ G) as [_ ->].
  destruct (dir_lookup n rt); [assumption | now apply dir_lookup_app].
Qed.

Lemma drain_host W : host (drain W) = host W.
Proof. unfold drain. now rewrite (proj1 (proj2 (proj2 (fold_microtasks _ _)))). Qed.

Ltac keeps_all :=
  unfold keeps in *; cbn in *;
  rewrite ?forallb_app, ?andb_true_r in *; cbn in *;
  repeat match goal with
         | H : _ /\ _ |- _ => destruct H
         | H : _ && _ = true |- _ => apply andb_true_iff in H
         end;
  repeat split; eauto using host_getFile_keeps;
  try (apply andb_true_iff; split; auto).

Lemma keeps_act name x a W :
  is_reading a = true -> keeps name x W -> keeps name x (act a W).
Proof.
  intros Ha H. unfold act, keeps. rewrite drain_pending, drain_host.
  fold (keeps name x (invoke a W)).
  destruct W as [b [q g f au ct m fs] h ts ms lg].
  destruct a; try discriminate Ha; unfold invoke.
  11:{ unfold deliver. cbn [pending host].
       destruct (pick i ts) as [[t rest]|] eqn:P; [|exact H].
       destruct H as (Hp & L). cbn [pending host] in Hp, L.
       rewrite (pick_forallb _ _ _ _ _ P) in Hp.
       apply andb_true_iff in Hp. destruct Hp as [Ht Hp].
       destruct (next_fault h) as [v h'] eqn:N.
       assert (R : root h' = root h).
       { unfold next_fault in N. destruct (faults h); inversion N; reflexivity. }
       clear N. destruct h' as [rt pg fl ub qb]. cbn in R. rewrite <- R in L. clear R.
       destruct t; cbn in Ht; try discriminate Ht;
         try match goal with k : MountK |- _ => destruct k as [|[]| |] end;
         try match goal with k : FileK |- _ => destruct k end;
         try discriminate Ht;
         unfold complete, answer; cbv beta iota;
         try match goal with
             | |- context [host_getFile ?n ?d] =>
                 destruct (host_getFile n d) as [[? ?]|?] eqn:G
             end;
         split_all; keeps_all. }
  all: unfold read; split_all; keeps_all.
Qed.

(** As long as the page only reads (it mounts, asks for the usage, gets the
    file, reads it, lists the root, assigns [filename], [auto], [mime] or
    [quota]) every entry of the root stays what it was, whatever the
    platform answers and in whatever order it completes the requests.  An
    empty file may be added for a name that was not there; nothing is
    changed and nothing is removed. *)
Theorem reading_keeps_the_files (acts : list Action) (w : World)
    (name : string) (x : Node) :
  forallb reads_only (pending w) = true ->
  forallb is_reading acts = true ->
  dir_lookup name (root (host w)) = Some x ->
  dir_lookup name (root (host (exec acts w))) = Some x.
Proof.
  intros Hp Ha L.
  assert (H : keeps name x w) by (split; assumption).
  clear Hp L. revert w H.
  induction acts as [|a acts IH]; intros w H; [apply H|].
  cbn in Ha. apply andb_true_iff in Ha. destruct Ha as [Ha Hacts].
  cbn. apply IH; [assumption|]. now apply keeps_act.
Qed.

(** ** Only the file that [filename] names is touched *)

Lemma dir_lookup_update_other name' n x d :
  name' <> n -> dir_lookup name' (dir_update n x d) = dir_lookup name' d.
Proof.
  intros Hne. unfold dir_lookup, dir_update.
  induction d as [|[k y] d IH]; [reflexivity|]. cbn.
  destruct (String.eqb k n) eqn:E; cbn.
  - apply String.eqb_eq in E. subst k.
    destruct (String.eqb n name') eqn:E'; [|reflexivity].
    apply String.eqb_eq in E'. congruence.
  - destruct (String.eqb k name'); [reflexivity | exact IH].
Qed.

Lemma dir_lookup_remove_other name' n d :
  name' <> n -> dir_lookup name' (dir_remove n d) = dir_lookup name' d.
Proof.
  intros Hne. unfold dir_lookup, dir_remove.
  induction d as [|[k y] d IH]; [reflexivity|]. cbn.
  destruct (String.eqb k n) eqn:E; cbn.
  - apply String.eqb_eq in E. subst k.
    destruct (String.eqb n name') eqn:E'; [|exact IH].
    apply String.eqb_eq in E'. congruence.
  - destruct (String.eqb k name'); [reflexivity | exact IH].
Qed.

Lemma dir_lookup_app_other name' n x d :
  name' <> n -> dir_lookup name' (d ++ [(n, x)]) = dir_lookup name' d.
Proof.
  intros Hne. unfold dir_lookup.
  induction d as [|[k y] d IH]; cbn.
  - destruct (String.eqb n name') eqn:E'; [|reflexivity].
    apply String.eqb_eq in E'. congruence.
  - destruct (String.eqb k name'); [reflexivity | exact IH].
Qed.

Lemma host_getFile_other name' n rt e d :
  host_getFile n rt = inl (e, d) -> name' <> n ->
  dir_lookup name' d = dir_lookup name' rt.
Proof.
  intros G Hne. destruct (host_getFile_root _ _ _ _ G) as [_ ->].
  destruct (dir_lookup n rt); [reflexivity | now apply dir_lookup_app_other].
Qed.

Lemma host_truncate_other name' n z rt d :
  host_truncate n z rt = inl d -> name' <> n ->
  dir_lookup name' d = dir_lookup name' rt.
Proof.
  unfold host_truncate. destruct (dir_lookup n rt) as [[data|]|]; intros H Hne;
    inversion H. now apply dir_lookup_update_other.
Qed.

Lemma host_write_other name' n b rt d :
  host_write n b rt = inl d -> name' <> n ->
  dir_lookup name' d = dir_lookup name' rt.
Proof.
  unfold host_write. destruct (dir_lookup n rt) as [[data|]|]; intros H Hne;
    inversion H. now apply dir_lookup_update_other.
Qed.

Lemma host_remove_other name' n rt d :
  host_remove n rt = inl d -> name' <> n ->
  dir_lookup name' d = dir_lookup name' rt.
Proof.
  unfold host_remove. destruct (dir_lookup n rt) as [[data|]|]; intros H Hne;
    inversion H. now apply dir_lookup_remove_other.
Qed.

Ltac split_all_eqn :=
  repeat (tidy_all;
    match goal with
    | |- context [match ?v with Some _ => _ | None => _ end] => is_var v; destruct v
    | |- context [match ?r with RUndefined => _ | RError _ _ => _ end] => is_var r; destruct r
    | |- context [if not_signed_in ?r then _ else _] => destruct (not_signed_in r)
    | |- context [if ?a && truthy_string ?f then _ else _] => destruct (a && truthy_string f)
    | |- context [if negb (truthy_string ?f) then _ else _] => destruct (truthy_string f)
    | |- context [host_getFile ?n ?d] => destruct (host_getFile n d) as [[? ?]|?] eqn:?
    | |- context [host_read ?n ?d] => destruct (host_read n d)
    | |- context [host_truncate ?n ?z ?d] => destruct (host_truncate n z d) eqn:?
    | |- context [host_write ?n ?z ?d] => destruct (host_write n z d) eqn:?
    | |- context [host_remove ?n ?d] => destruct (host_remove n d) eqn:?
    | |- context [new_Blob ?x ?y] => destruct (new_Blob x y)
    | |- context [next_page ?x ?y] => destruct (next_page x y) as [[|? ?] [? ?]]
    | |- context [Content_eq_dec ?a ?b] => destruct (Content_eq_dec a b)
    | |- context [match ?b with WebFilesystemBehavior => _ | SyncFilesystemBehavior => _ end] =>
        is_var b; destruct b
    | |- context [match ?k with MKReady => _ | MKGetFile _ => _ | MKList => _ | MKUsage => _ end] =>
        is_var k; destruct k
    | |- context [match ?k with FKCaller => _ | FKTruncate => _ | FKWrite => _ | FKRead => _ | FKRemove => _ end] =>
        is_var k; destruct k
    | |- context [match ?k with WTruncate => _ | WWrite => _ end] => is_var k; destruct k
    end).

Ltac other_file :=
  first
    [ assumption
    | erewrite host_getFile_other by eassumption; assumption
    | erewrite host_truncate_other by eassumption; assumption
    | erewrite host_write_other by eassumption; assumption
    | erewrite host_remove_other by eassumption; assumption ].

Ltac touches_all :=
  repeat match goal with
         | H : host_getFile _ _ = inl (?e, _) |- _ =>
             is_var e; pose proof (proj1 (host_getFile_root _ _ _ _ H)); subst e
         end;
  unfold touches_only in *; cbn in *;
  rewrite ?forallb_app, ?andb_true_r in *; cbn in *;
  rewrite ?String.eqb_refl in *;
  repeat match goal with
         | H : _ /\ _ |- _ => destruct H
         | H : _ && _ = true |- _ => apply andb_true_iff in H
         end;
  repeat split; auto; try other_file;
  try (apply andb_true_iff; split; auto).

Lemma touches_only_act name name' v a W :
  name' <> name -> assigns_filename a = false ->
  touches_only name name' v W -> touches_only name name' v (act a W).
Proof.
  intros Hne Ha H. unfold act, touches_only.
  rewrite drain_pending, drain_host.
  assert (Hf : filename (props (drain (invoke a W))) = filename (props (invoke a W))).
  { destruct (act_configuration_drain (invoke a W)) as [_ [E _]]. exact E. }
  rewrite Hf. clear Hf. fold (touches_only name name' v (invoke a W)).
  destruct W as [b [q g f au ct m fs] h ts ms lg].
  destruct H as (Hp & Hfn & L). cbn [pending props filename host] in Hp, Hfn, L.
  subst f.
  destruct a; try discriminate Ha; unfold invoke.
  14:{ unfold deliver. cbn [pending host].
       destruct (pick i ts) as [[t rest]|] eqn:P; [|repeat split; assumption].
       rewrite (pick_forallb _ _ _ _ _ P) in Hp.
       apply andb_true_iff in Hp. destruct Hp as [Ht Hp].
       destruct (next_fault h) as [fault h'] eqn:N.
       assert (R : root h' = root h).
       { unfold next_fault in N. destruct (faults h); inversion N; reflexivity. }
       clear N. destruct h' as [rt pg fl ub qb]. cbn in R. rewrite <- R in L. clear R.
       destruct t as [bytes k|ty bytes k|k| | |n k|e k|e sz|e bl|e|e|sz u es|e];
         try destruct e as [n ed];
         cbn in Ht; try (apply String.eqb_eq in Ht; subst n);
         unfold complete, answer; cbv beta iota; cbn [entry_name];
         split_all_eqn; touches_all. }
  all: unfold read, write; split_all_eqn; touches_all.
Qed.

(** As long as [filename] is not assigned again, no method and no callback
    creates, changes or removes an entry of the root other than the one
    [filename] names, whatever is called, whatever the platform answers and
    in whatever order it completes the requests. *)
Theorem only_the_named_file_is_touched (acts : list Action) (w : World)
    (name name' : string) :
  forallb (named name) (pending w) = true ->
  filename (props w) = Some name ->
  forallb (fun a => negb (assigns_filename a)) acts = true ->
  name' <> name ->
  dir_lookup name' (root (host (exec acts w))) = dir_lookup name' (root (host w)).
Proof.
  intros Hp Hf Ha Hne.
  assert (H : touches_only name name' (dir_lookup name' (root (host w))) w)
    by (repeat split; assumption).
  generalize (dir_lookup name' (root (host w))) H. clear Hp Hf H. revert w.
  induction acts as [|a acts IH]; intros w v H; [apply H|].
  cbn in Ha. apply andb_true_iff in Ha. destruct Ha as [Ha Hacts].
  cbn. apply IH; [assumption|]. apply touches_only_act; [assumption| |assumption].
  now apply negb_true_iff.
Qed.

(** ** The name a write takes *)

(** [writeFile] reads [filename] twice, once for the handle it truncates
    and once, when the truncation is acknowledged, for the handle it
    writes.  When another name is assigned to [filename] in between, the
    first file is left empty and the content goes to the second file, which
    is not truncated: what it held beyond the length of the new content
    stays.  The element has its handle and mirror mode is off; [k] is how
    many requests of the write the platform had served when the name was
    assigned. *)
Theorem writeFile_reads_filename_twice (w : World) (name1 name2 s : string)
    (data1 data2 : list byte) (k : nat) :
  quiescent w -> calm w -> fileSystem (props w) <> None ->
  auto (props w) = false ->
  filename (props w) = Some name1 -> content (props w) = CString s ->
  name1 <> name2 ->
  dir_lookup name1 (root (host w)) = Some (NFile data1) ->
  dir_lookup name2 (root (host w)) = Some (NFile data2) ->
  k <= 2 ->
  let w1 := run k (act Call_writeFile w) in
  let w2 := run 6 (act (Assign_filename (Some name2)) w1) in
  quiescent w2 /\
  host_read name1 (root (host w2)) = inl [] /\
  host_read name2 (root (host w2))
    = inl (encode s ++ skipn (List.length (encode s)) data2) /\
  log w2 = log w ++
    [Platform (RootGetFile name1 true); Platform (CreateWriter name1);
     Platform (Truncate name1 0);
     Platform (RootGetFile name2 true); Platform (CreateWriter name2);
     Platform (Write name2 (mkBlob (encode s) (mime (props w))));
     Fire "file-write" (Value VUndefined)].
Proof.
  intros Hq Hc Hfs Ha Hf Hct Hne L1 L2 Hk w1 w2. subst w2 w1.
  destruct w as [b [q g f a c m fs] [rt pg fl ub qb] ts ms lg].
  unfold quiescent, calm in Hq, Hc. cbn in Hq, Hc, Hfs, Ha, Hf, Hct, L1, L2.
  destruct Hq as [-> ->]. subst fl a f c. cbn [props mime log].
  destruct fs as [fs|]; [clear Hfs | congruence].
  pose proof (host_getFile_existing _ _ _ L1) as Hget.
  pose proof (host_truncate_zero _ _ _ L1) as Ht.
  set (d1 := dir_update name1 (NFile []) rt) in *.
  assert (L1' : dir_lookup name1 d1 = Some (NFile [])).
  { apply dir_lookup_update. congruence. }
  assert (L2' : dir_lookup name2 d1 = Some (NFile data2)).
  { subst d1. rewrite dir_lookup_update_other by congruence. exact L2. }
  pose proof (host_getFile_existing _ _ _ L2') as Hg'.
  set (written := encode s ++ skipn (List.length (encode s)) data2).
  assert (Hw : host_write name2 (mkBlob (encode s) m) d1
               = inl (dir_update name2 (NFile written) d1)).
  { unfold host_write. now rewrite L2'. }
  assert (R1 : host_read name1 (dir_update name2 (NFile written) d1) = inl []).
  { apply host_read_file. rewrite dir_lookup_update_other by assumption. exact L1'. }
  assert (R2 : host_read name2 (dir_update name2 (NFile written) d1) = inl written).
  { apply host_read_file, dir_lookup_update. congruence. }
  assert (Hblob : new_Blob (ArrayOf [s]) m = Some (mkBlob (encode s) m)).
  { unfold new_Blob. cbn. now rewrite app_nil_r. }
  assert (Hn : Some name1 <> Some name2) by congruence.
  clearbody d1 written.
  do 3 (destruct k as [|k];
        [ match goal with
          | |- context [run ?n (act Call_writeFile ?W)] =>
              remember (run n (act Call_writeFile W)) as W1 eqn:E1
          end;
          unfold act, invoke in E1; tidy_all_in E1;
          repeat (turn_in E1; rewrite ?Hget, ?Ht in E1; tidy_all_in E1);
          rewrite ?run_O in E1; subst W1;
          match goal with
          | |- context [run 6 ?W] => remember (run 6 W) as X eqn:E
          end;
          unfold act, invoke, assign_filename in E; cbn [props filename] in E;
          destruct (filename_eq_dec (Some name1) (Some name2)) as [Heq|_];
          [congruence|];
          tidy_all_in E;
          repeat (first [rewrite run_O in E | rest_in E
                        | turn_in E; rewrite ?Hget, ?Ht, ?Hg', ?Hblob, ?Hw in E;
                          tidy_all_in E]);
          subst X; cbn; (split; [split; reflexivity|]);
          (split; [assumption|]); (split; [assumption|]); reflexivity
        | ]).
  lia.
Qed.

End Behaviors.

(** * The properties on sample elements

    The platform of the samples encodes a string as its bytes and grants at
    most 4096 bytes. *)



(** C3 at a failing input: five files the platform lists as e, b, a, d, c
    in pages of two, two and one.  [list] reads the three pages and fires
    [directory-read] with the five entries in the platform's order, which
    is not the order of their names. *)
Theorem list_keeps_platform_order :
  log (run text string_of_list_byte sample_grant 6
         (list_ (element WebFilesystemBehavior five_files)))
  = [Platform (RequestQuota 0); SetGrantedQuota 0;
     Platform (RequestFileSystem PERSISTENT 0);
     SetFileSystem (LocalFileSystem PERSISTENT 0);
     Platform CreateReader;
     Platform ReadEntries; Platform ReadEntries; Platform ReadEntries;
     Platform ReadEntries;
     Fire "directory-read"
       (Object [("files",
                 VEntries [mkEntry "e.txt" false; mkEntry "b.txt" false;
                           mkEntry "a.txt" false; mkEntry "d.txt" false;
                           mkEntry "c.txt" false])])] /\
  sorted_by_name [mkEntry "e.txt" false; mkEntry "b.txt" false;
                  mkEntry "a.txt" false; mkEntry "d.txt" false;
                  mkEntry "c.txt" false] = false.
Proof. split; vm_compute; reflexivity. Qed.



(** C5 at a failing input: the platform's message is the error code and
    nothing else, so that [indexOf] is 0.  Neither [list] nor [getFile]
    replaces the platform's error. *)
Theorem sentinel_at_start_is_not_translated :
  indexOf "error code: -107" "error code: -107" = 0%Z /\
  not_signed_in lastError_at_start = false /\
  log (run text string_of_list_byte sample_grant 1
         (list_ (sample SyncFilesystemBehavior None false CUndefined
                   [Some lastError_at_start])))
  = [Platform SyncRequestFileSystem; Fire "error" (Value (VReason lastError_at_start))] /\
  log (run text string_of_list_byte sample_grant 1
         (getFile FKCaller
            (sample SyncFilesystemBehavior (Some "notes.txt") false CUndefined
               [Some lastError_at_start])))
  = [Platform SyncRequestFileSystem; Rejected lastError_at_start].
Proof. repeat split; vm_compute; reflexivity. Qed.

(** With text before the error code both methods replace the error. *)
Lemma sentinel_inside_is_translated :
  not_signed_in lastError_inside = true /\
  log (run text string_of_list_byte sample_grant 1
         (list_ (sample SyncFilesystemBehavior None false CUndefined
                   [Some lastError_inside])))
  = [Platform SyncRequestFileSystem;
     Fire "error" (Value (VString not_signed_in_message))] /\
  log (run text string_of_list_byte sample_grant 1
         (getFile FKCaller
            (sample SyncFilesystemBehavior (Some "notes.txt") false CUndefined
               [Some lastError_inside])))
  = [Platform SyncRequestFileSystem; Rejected (Error not_signed_in_message)].
Proof. repeat split; vm_compute; reflexivity. Qed.

(** C6 on a sample in mirror mode: five turns after [readFile] nothing of
    a write is in flight, and [auto], off when the callback returns, is on
    again after the deferred callback. *)
Lemma readFile_starts_no_write_witness :
  (quiescent (sample WebFilesystemBehavior (Some "notes.txt") true CUndefined []) /\
   auto (props (sample WebFilesystemBehavior (Some "notes.txt") true CUndefined []))
     = true) /\
  no_write_task
    (pending (run text string_of_list_byte sample_grant 5
                (readFile (sample WebFilesystemBehavior (Some "notes.txt") true
                             CUndefined [])))) = true /\
  auto (props
    (deliver text string_of_list_byte sample_grant 0
       (run text string_of_list_byte sample_grant 4
          (readFile (sample WebFilesystemBehavior (Some "notes.txt") true
                       CUndefined []))))) = false /\
  auto (props
    (drain
       (deliver text string_of_list_byte sample_grant 0
          (run text string_of_list_byte sample_grant 4
             (readFile (sample WebFilesystemBehavior (Some "notes.txt") true
                          CUndefined [])))))) = true.
Proof.
  split; [repeat split; reflexivity|].
  destruct (readFile_starts_no_write text string_of_list_byte sample_grant
              (sample WebFilesystemBehavior (Some "notes.txt") true CUndefined [])
              (conj eq_refl eq_refl) eq_refl)
    as [H1 H2].
  split; [exact (proj1 (H1 5))|].
  specialize (H2 eq_refl (text "a longer text") eq_refl). cbv zeta in H2.
  destruct H2 as (_ & (Hd & _) & _ & Ha & _). split; [exact Hd | exact Ha].
Defined.

(** C7 on samples: no file name, and a file the platform fails to delete. *)
Lemma remove_spec_witness :
  (truthy (filename (props (sample WebFilesystemBehavior None false CUndefined [])))
     = false /\
   truthy (filename (props (sample SyncFilesystemBehavior (Some "notes.txt") false
                              CUndefined [])))
     = true) /\
  log (remove (sample WebFilesystemBehavior None false CUndefined []))
  = [Fire "error" (Value (VReason (Error "Filename not present.")))] /\
  pending (remove (sample WebFilesystemBehavior None false CUndefined [])) = [] /\
  quiescent (run text string_of_list_byte sample_grant 4
               (remove (sample SyncFilesystemBehavior (Some "notes.txt") false
                          CUndefined []))).
Proof.
  split; [split; reflexivity|].
  destruct (remove_spec text string_of_list_byte sample_grant
              (sample WebFilesystemBehavior None false CUndefined [])) as [H _].
  destruct (H eq_refl) as (_ & Hp & Hl).
  split; [exact Hl|]. split; [exact Hp|].
  destruct (remove_spec text string_of_list_byte sample_grant
              (sample SyncFilesystemBehavior (Some "notes.txt") false CUndefined []))
    as [_ H'].
  exact (proj1 (H' eq_refl (conj eq_refl eq_refl))).
Defined.


(** What the usage queries fire when the platform fails them: the message
    under the key [messager], and the rejection under the key [message]. *)
Lemma usage_query_error_detail :
  log (run text string_of_list_byte sample_grant 1
         (getUsageAndQuota
            (sample WebFilesystemBehavior None false CUndefined
               [Some (RError "QuotaExceededError" (Some "no space"))])))
  = [Platform QueryUsageAndQuota;
     Fire "error" (Object [("messager", VString "no space")])] /\
  log (run text string_of_list_byte sample_grant 1
         (getUsageAndQuota
            (sample SyncFilesystemBehavior None false CUndefined
               [Some lastError_inside])))
  = [Platform SyncRequestFileSystem;
     Fire "error" (Object [("message", VReason lastError_inside)])].
Proof. split; vm_compute; reflexivity. Qed.


(** Two mounts of the persistent behaviour, each granted its quota and then
    failed by the platform: [grantedQuota] has been written twice and no
    mount has succeeded. *)
Lemma grant_recorded_by_failed_mounts :
  fileSystem (props
    (exec text string_of_list_byte sample_grant
       [Call_requestFilesystem; Complete 0; Complete 0;
        Call_requestFilesystem; Complete 0; Complete 0]
       (sample WebFilesystemBehavior None false CUndefined
          [None; Some SecurityError; None; Some SecurityError]))) = None /\
  grantedQuota (props
    (exec text string_of_list_byte sample_grant
       [Call_requestFilesystem; Complete 0; Complete 0;
        Call_requestFilesystem; Complete 0; Complete 0]
       (sample WebFilesystemBehavior None false CUndefined
          [None; Some SecurityError; None; Some SecurityError]))) = 1024%Z /\
  quota_writes (log
    (exec text string_of_list_byte sample_grant
       [Call_requestFilesystem; Complete 0; Complete 0;
        Call_requestFilesystem; Complete 0; Complete 0]
       (sample WebFilesystemBehavior None false CUndefined
          [None; Some SecurityError; None; Some SecurityError]))) = 2 /\
  outcomes (log
    (exec text string_of_list_byte sample_grant
       [Call_requestFilesystem; Complete 0; Complete 0;
        Call_requestFilesystem; Complete 0; Complete 0]
       (sample WebFilesystemBehavior None false CUndefined
          [None; Some SecurityError; None; Some SecurityError])))
  = [Fire "error" (Object [("error", VReason SecurityError)]);
     Fire "error" (Object [("error", VReason SecurityError)])].
Proof. repeat split; vm_compute; reflexivity. Qed.

(** C9 as amended, on a sample: the grant is recorded and the mount then
    fails. *)
Lemma persistent_mount_records_grant_witness :
  (quiescent (sample WebFilesystemBehavior None false CUndefined
                [None; Some SecurityError]) /\
   behavior (sample WebFilesystemBehavior None false CUndefined
               [None; Some SecurityError]) = WebFilesystemBehavior /\
   fileSystem (props (sample WebFilesystemBehavior None false CUndefined
                        [None; Some SecurityError])) = None) /\
  props (run text string_of_list_byte sample_grant 2
           (_requestFilesystem MKReady
              (sample WebFilesystemBehavior None false CUndefined
                 [None; Some SecurityError])))
  = put_grantedQuota 1024%Z (sample_props None false CUndefined).
Proof.
  split; [repeat split; reflexivity|].
  pose proof (persistent_mount_records_grant text string_of_list_byte sample_grant
                (sample WebFilesystemBehavior None false CUndefined
                   [None; Some SecurityError]) MKReady) as H.
  cbv zeta in H.
  destruct (H (conj eq_refl eq_refl) eq_refl eq_refl) as (_ & _ & H' & _).
  destruct (H' eq_refl) as (_ & _ & Hf).
  exact (proj1 (Hf SecurityError eq_refl)).
Defined.

(** C10 on a sample: the root has no [ghost.txt]. *)
Lemma remove_missing_creates_then_deletes_witness :
  (quiescent (sample WebFilesystemBehavior (Some "ghost.txt") false CUndefined []) /\
   calm (sample WebFilesystemBehavior (Some "ghost.txt") false CUndefined []) /\
   truthy (Some "ghost.txt") = true /\
   dir_lookup "ghost.txt" sample_root = None) /\
  root (host (run text string_of_list_byte sample_grant 3
                (remove (sample WebFilesystemBehavior (Some "ghost.txt") false
                           CUndefined []))))
  = sample_root ++ [("ghost.txt", NFile [])] /\
  log (run text string_of_list_byte sample_grant 4
         (remove (sample WebFilesystemBehavior (Some "ghost.txt") false CUndefined [])))
  = [Platform (RequestQuota 1024); SetGrantedQuota 1024;
     Platform (RequestFileSystem PERSISTENT 1024);
     SetFileSystem (LocalFileSystem PERSISTENT 1024);
     Platform (RootGetFile "ghost.txt" true); Platform (EntryRemove "ghost.txt");
     Fire "removed" (Object [])].
Proof.
  split; [repeat split; reflexivity|].
  pose proof (remove_missing_creates_then_deletes text string_of_list_byte sample_grant
                (sample WebFilesystemBehavior (Some "ghost.txt") false CUndefined []))
    as H.
  cbv zeta in H.
  destruct (H (conj eq_refl eq_refl) eq_refl eq_refl eq_refl)
    as ((_ & Hr & _) & (_ & _ & Hl)).
  split; [exact Hr | exact Hl].
Defined.


(** ** The further properties on sample elements *)

(** A root with a directory between two files, in pages of one entry: the
    directory is listed first. *)
Lemma list_requests_and_order_witness :
  (quiescent (element WebFilesystemBehavior mixed_root) /\
   calm (element WebFilesystemBehavior mixed_root)) /\
  log (run text string_of_list_byte sample_grant 6
         (list_ (element WebFilesystemBehavior mixed_root)))
  = [Platform (RequestQuota 0); SetGrantedQuota 0;
     Platform (RequestFileSystem PERSISTENT 0);
     SetFileSystem (LocalFileSystem PERSISTENT 0);
     Platform CreateReader;
     Platform ReadEntries; Platform ReadEntries; Platform ReadEntries;
     Platform ReadEntries;
     Fire "directory-read"
       (Object [("files",
                 VEntries [mkEntry "logs" true; mkEntry "b.txt" false;
                           mkEntry "a.txt" false])])].
Proof.
  split; [repeat split; reflexivity|].
  pose proof (list_requests_and_order text string_of_list_byte sample_grant
                (element WebFilesystemBehavior mixed_root)
                (conj eq_refl eq_refl) eq_refl) as H.
  cbv zeta in H. destruct H as (_ & _ & _ & H). exact H.
Defined.

(** A user who is not signed in, on the sync behaviour. *)
Lemma sync_mount_failure_witness :
  (behavior (sample SyncFilesystemBehavior (Some "notes.txt") false CUndefined
               [Some lastError_inside]) = SyncFilesystemBehavior /\
   fileSystem (props (sample SyncFilesystemBehavior (Some "notes.txt") false CUndefined
                        [Some lastError_inside])) = None /\
   quiescent (sample SyncFilesystemBehavior (Some "notes.txt") false CUndefined
                [Some lastError_inside]) /\
   verdict 0 (sample SyncFilesystemBehavior (Some "notes.txt") false CUndefined
                [Some lastError_inside]) = Some lastError_inside) /\
  log (run text string_of_list_byte sample_grant 1
         (readFile (sample SyncFilesystemBehavior (Some "notes.txt") false CUndefined
                      [Some lastError_inside])))
  = [Platform SyncRequestFileSystem;
     Fire "error" (Value (VReason (Error not_signed_in_message)))] /\
  log (run text string_of_list_byte sample_grant 1
         (getUsageAndQuota (sample SyncFilesystemBehavior (Some "notes.txt") false
                              CUndefined [Some lastError_inside])))
  = [Platform SyncRequestFileSystem;
     Fire "error" (Object [("message", VReason lastError_inside)])].
Proof.
  split; [repeat split; reflexivity|].
  pose proof (sync_mount_failure text string_of_list_byte sample_grant
                (sample SyncFilesystemBehavior (Some "notes.txt") false CUndefined
                   [Some lastError_inside])
                lastError_inside eq_refl eq_refl (conj eq_refl eq_refl) eq_refl) as H.
  cbv zeta in H. destruct H as (_ & _ & Hu & _ & Hr & _). split; [exact Hr | exact Hu].
Defined.

(** The usage of the sample platform, asked of an element that has no
    handle. *)
Lemma web_usage_query_witness :
  (behavior (sample WebFilesystemBehavior None false CUndefined [])
   = WebFilesystemBehavior /\
   quiescent (sample WebFilesystemBehavior None false CUndefined [])) /\
  log (run text string_of_list_byte sample_grant 1
         (getUsageAndQuota (sample WebFilesystemBehavior None false CUndefined [])))
  = [Platform QueryUsageAndQuota;
     Fire "filesystem-usage"
       (Object [("usageBytes", VNumber 13); ("quotaBytes", VNumber 4096)])] /\
  fileSystem (props (run text string_of_list_byte sample_grant 1
                       (getUsageAndQuota
                          (sample WebFilesystemBehavior None false CUndefined []))))
  = None.
Proof.
  split; [repeat split; reflexivity|].
  pose proof (web_usage_query text string_of_list_byte sample_grant
                (sample WebFilesystemBehavior None false CUndefined [])
                eq_refl (conj eq_refl eq_refl)) as H.
  cbv zeta in H. destruct H as (_ & _ & _ & Hp & Hl & _).
  split; [exact (Hl eq_refl) | now rewrite Hp].
Defined.

Lemma sync_usage_query_witness :
  (behavior (sample SyncFilesystemBehavior None false CUndefined [])
   = SyncFilesystemBehavior /\
   quiescent (sample SyncFilesystemBehavior None false CUndefined []) /\
   forall i, i < 2 ->
     verdict i (sample SyncFilesystemBehavior None false CUndefined []) = None) /\
  log (run text string_of_list_byte sample_grant 2
         (getUsageAndQuota (sample SyncFilesystemBehavior None false CUndefined [])))
  = [Platform SyncRequestFileSystem; SetFileSystem SyncableFileSystem;
     Platform SyncGetUsageAndQuota;
     Fire "filesystem-usage"
       (Object [("usageBytes", VNumber 13); ("quotaBytes", VNumber 4096)])].
Proof.
  assert (V : forall i, i < 2 ->
            verdict i (sample SyncFilesystemBehavior None false CUndefined []) = None).
  { intros i _. destruct i; reflexivity. }
  split; [repeat split; try reflexivity; exact V|].
  pose proof (sync_usage_query text string_of_list_byte sample_grant
                (sample SyncFilesystemBehavior None false CUndefined [])
                eq_refl (conj eq_refl eq_refl) V) as H.
  cbv zeta in H. destruct H as (_ & _ & _ & H). exact H.
Defined.

(** Mirror mode: the name of a file is assigned, and its text is read. *)
Lemma mirror_filename_reads_witness :
  (quiescent (sample WebFilesystemBehavior None true CUndefined []) /\
   calm (sample WebFilesystemBehavior None true CUndefined []) /\
   truthy_string "notes.txt" = true /\
   host_read "notes.txt" sample_root = inl (text "a longer text")) /\
  content (props
    (run text string_of_list_byte sample_grant 5
       (act text string_of_list_byte sample_grant (Assign_filename (Some "notes.txt"))
          (sample WebFilesystemBehavior None true CUndefined []))))
  = CString "a longer text" /\
  auto (props
    (run text string_of_list_byte sample_grant 5
       (act text string_of_list_byte sample_grant (Assign_filename (Some "notes.txt"))
          (sample WebFilesystemBehavior None true CUndefined []))))
  = true.
Proof.
  split; [repeat split; reflexivity|].
  pose proof (mirror_filename_reads text string_of_list_byte sample_grant
                (sample WebFilesystemBehavior None true CUndefined [])
                "notes.txt" (text "a longer text")
                (conj eq_refl eq_refl) eq_refl eq_refl eq_refl) as H.
  cbv zeta in H. destruct H as (_ & _ & _ & Ha & Hr & _).
  assert (Hn : @None string <> Some "notes.txt") by discriminate.
  split; [exact (proj1 (Hr eq_refl Hn)) | exact Ha].
Defined.

(** Mirror mode: a string is assigned to [content], and the file holds it. *)
Lemma mirror_content_writes_witness :
  (quiescent (sample WebFilesystemBehavior (Some "notes.txt") true CUndefined []) /\
   calm (sample WebFilesystemBehavior (Some "notes.txt") true CUndefined []) /\
   truthy_string "notes.txt" = true /\
   dir_lookup "notes.txt" sample_root <> Some NDirectory) /\
  host_read "notes.txt"
    (root (host
      (run text string_of_list_byte sample_grant 8
         (act text string_of_list_byte sample_grant (Assign_content (CString "hi"))
            (sample WebFilesystemBehavior (Some "notes.txt") true CUndefined [])))))
  = inl (text "hi").
Proof.
  assert (Hd : dir_lookup "notes.txt" sample_root <> Some NDirectory)
    by (vm_compute; discriminate).
  split; [repeat split; try reflexivity; exact Hd|].
  pose proof (mirror_content_writes text string_of_list_byte sample_grant
                (sample WebFilesystemBehavior (Some "notes.txt") true CUndefined [])
                "notes.txt" "hi"
                (conj eq_refl eq_refl) eq_refl eq_refl eq_refl Hd) as H.
  cbv zeta in H. destruct H as (_ & _ & _ & Hw & _).
  assert (Hn : CUndefined <> CString "hi") by discriminate.
  exact (proj1 (Hw eq_refl Hn)).
Defined.

(** Reading [new.txt], which the sample root does not have. *)
Lemma readFile_creates_missing_file_witness :
  (quiescent (sample WebFilesystemBehavior (Some "new.txt") false CUndefined []) /\
   calm (sample WebFilesystemBehavior (Some "new.txt") false CUndefined []) /\
   dir_lookup "new.txt" sample_root = None) /\
  root (host (run text string_of_list_byte sample_grant 5
                (readFile (sample WebFilesystemBehavior (Some "new.txt") false
                             CUndefined []))))
  = sample_root ++ [("new.txt", NFile [])] /\
  content (props (run text string_of_list_byte sample_grant 5
                    (readFile (sample WebFilesystemBehavior (Some "new.txt") false
                                 CUndefined []))))
  = CString "".
Proof.
  split; [repeat split; reflexivity|].
  pose proof (readFile_creates_missing_file text string_of_list_byte sample_grant
                (sample WebFilesystemBehavior (Some "new.txt") false CUndefined [])
                "new.txt" (conj eq_refl eq_refl) eq_refl eq_refl eq_refl) as H.
  cbv zeta in H. destruct H as (_ & Hr & Hc & _). split; [exact Hr | exact Hc].
Defined.

(** Two bytes of an [ArrayBuffer] written over a longer text: the text is
    gone and nothing is reported. *)
Lemma writeFile_loses_binary_content_witness :
  (quiescent (sample WebFilesystemBehavior (Some "notes.txt") false
                (CBinary [x68; x69]) []) /\
   calm (sample WebFilesystemBehavior (Some "notes.txt") false (CBinary [x68; x69]) []) /\
   dir_lookup "notes.txt" sample_root <> Some NDirectory) /\
  host_read "notes.txt"
    (root (host (run text string_of_list_byte sample_grant 9
                   (writeFile (sample WebFilesystemBehavior (Some "notes.txt") false
                                 (CBinary [x68; x69]) [])))))
  = inl [] /\
  outcomes (log (run text string_of_list_byte sample_grant 9
                   (writeFile (sample WebFilesystemBehavior (Some "notes.txt") false
                                 (CBinary [x68; x69]) []))))
  = [Uncaught].
Proof.
  assert (Hd : dir_lookup "notes.txt" sample_root <> Some NDirectory)
    by (vm_compute; discriminate).
  split; [repeat split; try reflexivity; exact Hd|].
  assert (Hn : 2 + 5 <= 9) by (repeat constructor).
  pose proof (writeFile_loses_binary_content text string_of_list_byte sample_grant
                (sample WebFilesystemBehavior (Some "notes.txt") false
                   (CBinary [x68; x69]) [])
                "notes.txt" [x68; x69]
                (conj eq_refl eq_refl) eq_refl eq_refl eq_refl Hd 9 Hn) as H.
  cbv zeta in H. destruct H as (_ & Hr & Hl). split; [exact Hr|].
  rewrite Hl. reflexivity.
Defined.

(** The platform fails the second request for a writer: the text of
    [notes.txt] is gone. *)
Lemma writeFile_failure_leaves_file_witness :
  (quiescent (mounted_sample WebFilesystemBehavior (Some "notes.txt") false (CString "hi")
                [None; None; None; None; Some SecurityError]) /\
   dir_lookup "notes.txt" sample_root = Some (NFile (text "a longer text")) /\
   4 < 6 /\
   (forall i, i < 4 ->
      verdict i (mounted_sample WebFilesystemBehavior (Some "notes.txt") false
                   (CString "hi") [None; None; None; None; Some SecurityError]) = None) /\
   verdict 4 (mounted_sample WebFilesystemBehavior (Some "notes.txt") false
                (CString "hi") [None; None; None; None; Some SecurityError])
   = Some SecurityError) /\
  host_read "notes.txt"
    (root (host (run text string_of_list_byte sample_grant 6
                   (writeFile (mounted_sample WebFilesystemBehavior (Some "notes.txt")
                                 false (CString "hi")
                                 [None; None; None; None; Some SecurityError])))))
  = inl [].
Proof.
  assert (V : forall i, i < 4 ->
            verdict i (mounted_sample WebFilesystemBehavior (Some "notes.txt") false
                         (CString "hi") [None; None; None; None; Some SecurityError])
            = None).
  { intros i Hi. do 4 (destruct i as [|i]; [reflexivity|]). exfalso. lia. }
  assert (H46 : 4 < 6) by lia.
  split; [repeat split; try reflexivity; assumption|].
  assert (Hfs : fileSystem (props (mounted_sample WebFilesystemBehavior (Some "notes.txt")
                                     false (CString "hi")
                                     [None; None; None; None; Some SecurityError]))
                <> None) by discriminate.
  assert (Hb : new_Blob text (toWrite (CString "hi")) "text/plain" <> None)
    by discriminate.
  pose proof (writeFile_failure_leaves_file text string_of_list_byte sample_grant
                (mounted_sample WebFilesystemBehavior (Some "notes.txt") false
                   (CString "hi") [None; None; None; None; Some SecurityError])
                "notes.txt" (text "a longer text") 4 SecurityError
                (conj eq_refl eq_refl) Hfs eq_refl eq_refl Hb H46 V eq_refl) as H.
  cbv zeta in H. destruct H as (_ & _ & H). exact H.
Defined.

(** [getFile] for a name the sample root does not have. *)
Lemma getFile_settles_once_witness :
  quiescent (sample WebFilesystemBehavior (Some "new.txt") false CUndefined []) /\
  quiescent (run text string_of_list_byte sample_grant 3
               (act text string_of_list_byte sample_grant Call_getFile
                  (sample WebFilesystemBehavior (Some "new.txt") false CUndefined []))) /\
  outcomes (log (run text string_of_list_byte sample_grant 3
                   (act text string_of_list_byte sample_grant Call_getFile
                      (sample WebFilesystemBehavior (Some "new.txt") false
                         CUndefined []))))
  = [Resolved (mkEntry "new.txt" false)].
Proof.
  split; [split; reflexivity|].
  pose proof (getFile_settles_once text string_of_list_byte sample_grant
                (sample WebFilesystemBehavior (Some "new.txt") false CUndefined [])
                "new.txt" (conj eq_refl eq_refl) eq_refl) as H.
  cbv zeta in H. destruct H as (Hq & _). split; [exact Hq | reflexivity].
Defined.

(** A string assigned when the truncation has been asked for and not yet
    done is the one that is written. *)
Lemma writeFile_writes_latest_content_witness :
  (quiescent (mounted_sample WebFilesystemBehavior (Some "notes.txt") false
                (CString "old") []) /\
   calm (mounted_sample WebFilesystemBehavior (Some "notes.txt") false
           (CString "old") []) /\
   dir_lookup "notes.txt" sample_root <> Some NDirectory /\ 2 <= 4) /\
  host_read "notes.txt"
    (root (host
      (run text string_of_list_byte sample_grant 6
         (act text string_of_list_byte sample_grant (Assign_content (CString "new"))
            (run text string_of_list_byte sample_grant 2
               (act text string_of_list_byte sample_grant Call_writeFile
                  (mounted_sample WebFilesystemBehavior (Some "notes.txt") false
                     (CString "old") [])))))))
  = inl (text "new").
Proof.
  assert (Hd : dir_lookup "notes.txt" sample_root <> Some NDirectory)
    by (vm_compute; discriminate).
  assert (H24 : 2 <= 4) by lia.
  split; [repeat split; try reflexivity; assumption|].
  assert (Hfs : fileSystem (props (mounted_sample WebFilesystemBehavior (Some "notes.txt")
                                     false (CString "old") [])) <> None)
    by discriminate.
  pose proof (writeFile_writes_latest_content text string_of_list_byte sample_grant
                (mounted_sample WebFilesystemBehavior (Some "notes.txt") false
                   (CString "old") [])
                "notes.txt" "new" 2
                (conj eq_refl eq_refl) eq_refl Hfs eq_refl eq_refl Hd H24) as H.
  cbv zeta in H. destruct H as (_ & H & _). exact H.
Defined.


(** The turn that delivers the text of [notes.txt]. *)
Lemma content_changes_with_file_read_witness :
  (microtasks (mkWorld WebFilesystemBehavior
                 (sample_props (Some "notes.txt") true CUndefined) (sample_host [])
                 [TReadAsText (mkEntry "notes.txt" false)] [] []) = [] /\
   (forall c, Complete 0 <> Assign_content c) /\
   content (props (act text string_of_list_byte sample_grant (Complete 0)
                     (mkWorld WebFilesystemBehavior
                        (sample_props (Some "notes.txt") true CUndefined)
                        (sample_host [])
                        [TReadAsText (mkEntry "notes.txt" false)] [] [])))
   <> CUndefined) /\
  exists s,
    content (props (act text string_of_list_byte sample_grant (Complete 0)
                      (mkWorld WebFilesystemBehavior
                         (sample_props (Some "notes.txt") true CUndefined)
                         (sample_host [])
                         [TReadAsText (mkEntry "notes.txt" false)] [] [])))
    = CString s /\
    log (act text string_of_list_byte sample_grant (Complete 0)
           (mkWorld WebFilesystemBehavior
              (sample_props (Some "notes.txt") true CUndefined) (sample_host [])
              [TReadAsText (mkEntry "notes.txt" false)] [] []))
    = [Fire "file-read" (Object [("content", VString s)])].
Proof.
  assert (Ha : forall c, Complete 0 <> Assign_content c) by discriminate.
  assert (Hc : content (props (act text string_of_list_byte sample_grant (Complete 0)
                     (mkWorld WebFilesystemBehavior
                        (sample_props (Some "notes.txt") true CUndefined)
                        (sample_host [])
                        [TReadAsText (mkEntry "notes.txt" false)] [] [])))
               <> CUndefined) by (vm_compute; discriminate).
  split; [repeat split; try reflexivity; assumption|].
  exact (content_changes_with_file_read text string_of_list_byte sample_grant
           (Complete 0)
           (mkWorld WebFilesystemBehavior
              (sample_props (Some "notes.txt") true CUndefined) (sample_host [])
              [TReadAsText (mkEntry "notes.txt" false)] [] [])
           eq_refl Ha Hc).
Defined.

(** A listing and two reads, one of a new name, on a platform that fails
    the third request: [notes.txt] is what it was. *)
Lemma reading_keeps_the_files_witness :
  (forallb reads_only
     (pending (sample WebFilesystemBehavior None true CUndefined
                 [None; None; Some SecurityError])) = true /\
   forallb is_reading
     [Call_list; Assign_filename (Some "new.txt"); Complete 0; Complete 1;
      Complete 0; Complete 0; Call_getFile; Complete 1; Complete 0; Complete 0] = true /\
   dir_lookup "notes.txt" sample_root = Some (NFile (text "a longer text"))) /\
  dir_lookup "notes.txt"
    (root (host
      (exec text string_of_list_byte sample_grant
         [Call_list; Assign_filename (Some "new.txt"); Complete 0; Complete 1;
          Complete 0; Complete 0; Call_getFile; Complete 1; Complete 0; Complete 0]
         (sample WebFilesystemBehavior None true CUndefined
            [None; None; Some SecurityError]))))
  = Some (NFile (text "a longer text")).
Proof.
  split; [repeat split; reflexivity|].
  exact (reading_keeps_the_files text string_of_list_byte sample_grant
           [Call_list; Assign_filename (Some "new.txt"); Complete 0; Complete 1;
            Complete 0; Complete 0; Call_getFile; Complete 1; Complete 0; Complete 0]
           (sample WebFilesystemBehavior None true CUndefined
              [None; None; Some SecurityError])
           "notes.txt" (NFile (text "a longer text")) eq_refl eq_refl eq_refl).
Defined.

(** A write and a removal of [notes.txt]: [draft.txt] is what it was. *)
Lemma only_the_named_file_is_touched_witness :
  (forallb (named "notes.txt")
     (pending (sample WebFilesystemBehavior (Some "notes.txt") false (CString "hi") []))
   = true /\
   filename (props (sample WebFilesystemBehavior (Some "notes.txt") false
                      (CString "hi") [])) = Some "notes.txt" /\
   forallb (fun a => negb (assigns_filename a))
     [Call_writeFile; Complete 0; Complete 0; Complete 0; Complete 0; Complete 0;
      Complete 0; Complete 0; Complete 0; Call_remove; Complete 0; Complete 0] = true /\
   "draft.txt" <> "notes.txt") /\
  dir_lookup "draft.txt"
    (root (host
      (exec text string_of_list_byte sample_grant
         [Call_writeFile; Complete 0; Complete 0; Complete 0; Complete 0; Complete 0;
          Complete 0; Complete 0; Complete 0; Call_remove; Complete 0; Complete 0]
         (sample WebFilesystemBehavior (Some "notes.txt") false (CString "hi") []))))
  = Some (NFile []).
Proof.
  assert (Hne : "draft.txt" <> "notes.txt") by discriminate.
  split; [repeat split; try reflexivity; exact Hne|].
  exact (only_the_named_file_is_touched text string_of_list_byte sample_grant
           [Call_writeFile; Complete 0; Complete 0; Complete 0; Complete 0; Complete 0;
            Complete 0; Complete 0; Complete 0; Call_remove; Complete 0; Complete 0]
           (sample WebFilesystemBehavior (Some "notes.txt") false (CString "hi") [])
           "notes.txt" "draft.txt" eq_refl eq_refl eq_refl Hne).
Defined.

(** "hi" on its way to [draft.txt] when [filename] becomes [notes.txt]:
    the two bytes land on the longer text, and the rest of it stays. *)
Lemma writeFile_reads_filename_twice_witness :
  (quiescent (mounted_sample WebFilesystemBehavior (Some "draft.txt") false
                (CString "hi") []) /\
   calm (mounted_sample WebFilesystemBehavior (Some "draft.txt") false
           (CString "hi") []) /\
   "draft.txt" <> "notes.txt" /\
   dir_lookup "draft.txt" sample_root = Some (NFile []) /\
   dir_lookup "notes.txt" sample_root = Some (NFile (text "a longer text")) /\
   1 <= 2) /\
  host_read "notes.txt"
    (root (host
      (run text string_of_list_byte sample_grant 6
         (act text string_of_list_byte sample_grant (Assign_filename (Some "notes.txt"))
            (run text string_of_list_byte sample_grant 1
               (act text string_of_list_byte sample_grant Call_writeFile
                  (mounted_sample WebFilesystemBehavior (Some "draft.txt") false
                     (CString "hi") [])))))))
  = inl (text "hilonger text").
Proof.
  assert (Hne : "draft.txt" <> "notes.txt") by discriminate.
  assert (H12 : 1 <= 2) by lia.
  split; [repeat split; try reflexivity; assumption|].
  assert (Hfs : fileSystem (props (mounted_sample WebFilesystemBehavior (Some "draft.txt")
                                     false (CString "hi") [])) <> None)
    by discriminate.
  pose proof (writeFile_reads_filename_twice text string_of_list_byte sample_grant
                (mounted_sample WebFilesystemBehavior (Some "draft.txt") false
                   (CString "hi") [])
                "draft.txt" "notes.txt" "hi" [] (text "a longer text") 1
                (conj eq_refl eq_refl) eq_refl Hfs eq_refl eq_refl eq_refl Hne
                eq_refl eq_refl H12) as H.
  cbv zeta in H. destruct H as (_ & _ & H & _). exact H.
Defined.
